(** * BillSplit: the balance calculator and the payment-link builder

    A shallow embedding of the balance computations of the dashboard screen
    ([src/app/(tabs)/dashboard.tsx]) and of the settle-up screen
    ([src/app/settle-up.tsx]), and of [handlePaymentRedirect]
    ([lib/paymentUtils]).

    Amounts are JavaScript numbers, that is IEEE 754 binary64 values: they are
    embedded as Rocq's primitive floats, whose operations are the same
    correctly rounded ones.  Strings are Rocq strings.  The record
    [friendDebts] is a plain object: its own properties are kept in creation
    order, [Object.values] lists those named by an array index first, and a
    number written to [__proto__] is not stored. *)

From Stdlib Require Import List String Ascii Bool Arith Lia ZArith.
From Stdlib Require Import Sorted Permutation RelationClasses OrdersEx.
From Stdlib Require Import Floats Uint63.
Import ListNotations.

Set Warnings "-inexact-float".
Set Implicit Arguments.

Local Open Scope string_scope.
Local Open Scope list_scope.

(** ** The fragment of the JavaScript runtime the screens rely on *)

Module JS.

(** [xs.forEach(x => body)], the loop state threaded explicitly. *)
Definition forEach {A S : Type} (xs : list A) (body : S -> A -> S) (s : S) : S :=
  fold_left body xs s.

(** [Number] of an array length (array lengths stay below 2^32). *)
Definition Number (n : nat) : float :=
  PrimFloat.of_uint63 (Uint63.of_Z (Z.of_nat n)).

(** Truthiness of a number: [0], [-0] and [NaN] are falsy. *)
Definition truthy (x : float) : bool :=
  negb ((x =? 0)%float || PrimFloat.is_nan x).

(** [x || 0] where [x] is a number or [undefined]. *)
Definition or_zero (x : option float) : float :=
  match x with
  | Some v => if truthy v then v else 0%float
  | None => 0%float
  end.

(** [x > y] on numbers. *)
Definition gt (x y : float) : bool := (y <? x)%float.

Definition Math_abs (x : float) : float := PrimFloat.abs x.

(** [xs.includes(x)] on an array of strings. *)
Definition includes (xs : list string) (x : string) : bool :=
  existsb (String.eqb x) xs.

(** *** Plain objects

    A plain object [{}] used as a record: its own properties with their
    values, in creation order. *)
Definition record (V : Type) : Type := list (string * V).

(** A [Record<string, number>]. *)
Definition object : Type := record float.

(** The one name of [Object.prototype] that is an accessor: a number or a
    string written to it is not stored. *)
Definition proto : string := "__proto__".

(** The names of the members every plain object inherits from
    [Object.prototype] (ECMA-262, with its annex B). *)
Definition inherited (k : string) : bool :=
  existsb (String.eqb k)
    ["constructor"; "hasOwnProperty"; "isPrototypeOf"; "propertyIsEnumerable";
     "toLocaleString"; "toString"; "valueOf"; "__proto__";
     "__defineGetter__"; "__defineSetter__"; "__lookupGetter__";
     "__lookupSetter__"].

(** The own property [k] of [o], [None] when [o] has none.  For a name
    that [o] has as own property this is what [o[k]] reads; the expenses
    loops read [friendDebts] at such names and at [__proto__] only. *)
Fixpoint get {V : Type} (o : record V) (k : string) : option V :=
  match o with
  | [] => None
  | (k', v) :: o' => if String.eqb k' k then Some v else get o' k
  end.

(** The definition of an own property: an existing one keeps its place, a
    new one is created last. *)
Fixpoint put {V : Type} (o : record V) (k : string) (v : V) : record V :=
  match o with
  | [] => [(k, v)]
  | (k', v') :: o' =>
      if String.eqb k' k then (k', v) :: o' else (k', v') :: put o' k v
  end.

(** [o[k] = v] for a number or a string [v]: nothing is stored at
    [__proto__]. *)
Definition set {V : Type} (o : record V) (k : string) (v : V) : record V :=
  if String.eqb k proto then o else put o k v.

(** The own property names in creation order. *)
Definition own_names {V : Type} (o : record V) : list string := map fst o.

(** An array index: the canonical decimal numeral of an integer from [0] to
    [2^32 - 2]. *)
Definition digit (c : ascii) : option N :=
  let n := N_of_ascii c in
  if (N.leb 48 n && N.leb n 57)%bool then Some (n - 48)%N else None.

Fixpoint numeral (s : string) (value : N) : option N :=
  match s with
  | EmptyString => Some value
  | String c s' =>
      match digit c with
      | Some d => numeral s' (10 * value + d)%N
      | None => None
      end
  end.

Definition array_index (k : string) : option N :=
  match k with
  | EmptyString => None
  | String "0" EmptyString => Some 0%N
  | String "0" _ => None
  | _ =>
      match numeral k 0 with
      | Some n => if N.ltb n 4294967295 then Some n else None
      | None => None
      end
  end.

Definition is_index (k : string) : bool :=
  match array_index k with
  | Some _ => true
  | None => false
  end.

Definition index_of (k : string) : N :=
  match array_index k with
  | Some n => n
  | None => 0%N
  end.

Fixpoint insert_index {A : Type} (key : A -> string) (x : A) (l : list A)
    : list A :=
  match l with
  | [] => [x]
  | y :: l' =>
      if N.leb (index_of (key x)) (index_of (key y))
      then x :: y :: l'
      else y :: insert_index key x l'
  end.

(** The order in which the own properties are listed: those named by an
    array index in ascending order of index, then the others in creation
    order. *)
Definition listed {A : Type} (key : A -> string) (l : list A) : list A :=
  fold_right (insert_index key) [] (filter (fun x => is_index (key x)) l)
  ++ filter (fun x => negb (is_index (key x))) l.

Definition Object_entries {V : Type} (o : record V) : list (string * V) :=
  listed fst o.

Definition Object_values {V : Type} (o : record V) : list V :=
  map snd (Object_entries o).

Definition Object_keys {V : Type} (o : record V) : list string :=
  map fst (Object_entries o).

(** A [Set<string>], in insertion order; [Array.from] lists it in that
    order. *)
Definition Set_add (s : list string) (x : string) : list string :=
  if existsb (String.eqb x) s then s else s ++ [x].

(** [xs.sort(compareFn)]: the sort is stable; an element moves behind another
    one only when [compareFn] puts it strictly after. *)
Fixpoint sort_insert {A : Type} (compareFn : A -> A -> comparison)
    (x : A) (l : list A) : list A :=
  match l with
  | [] => [x]
  | y :: l' =>
      match compareFn x y with
      | Gt => y :: sort_insert compareFn x l'
      | _ => x :: y :: l'
      end
  end.

Definition Array_sort {A : Type} (compareFn : A -> A -> comparison)
    (xs : list A) : list A :=
  fold_right (sort_insert compareFn) [] xs.

(** [s.replace(c, '')] for a one-character pattern: only the first
    occurrence is removed. *)
Fixpoint replace_first (c : ascii) (s : string) : string :=
  match s with
  | EmptyString => EmptyString
  | String a s' => if Ascii.eqb a c then s' else String a (replace_first c s')
  end.

(** [s.replace(/[^...]/g, '')]: every character outside the class is
    removed. *)
Fixpoint keep (class : ascii -> bool) (s : string) : string :=
  match s with
  | EmptyString => EmptyString
  | String a s' => if class a then String a (keep class s') else keep class s'
  end.

End JS.

(** ** The data model *)

Module Expense.

Record t : Type := mk {
  id : string;
  title : string;
  amount : float;
  date : string;
  paidBy : string;    (* 'You' or a friend's name *)
  splitWith : list string
}.

End Expense.

Module FriendBalance.

Record t : Type := mk {
  name : string;
  amount : float   (* positive: they owe you, negative: you owe them *)
}.

End FriendBalance.

(** The fixed name of the current user. *)
Definition You : string := "You".

(** ** The dashboard screen *)

Module Dashboard.

Import Expense.

Record Summary : Type := mkSummary {
  totalSpent : float;
  youPaid : float;
  youOwe : float;
  youAreOwed : float;
  netBalance : float
}.

(** [getUniqueFriends]: the participants other than 'You'. *)
Definition getUniqueFriends (expenses : list Expense.t) : list string :=
  JS.forEach expenses
    (fun participants expense =>
       let participants :=
         if negb (String.eqb (paidBy expense) You)
         then JS.Set_add participants (paidBy expense)
         else participants in
       JS.forEach (splitWith expense)
         (fun participants person =>
            if negb (String.eqb person You)
            then JS.Set_add participants person
            else participants)
         participants)
    [].

(** [friends.forEach(friend => { friendDebts[friend] = 0; })] on [{}]. *)
Definition initialDebts (friends : list string) : JS.object :=
  JS.forEach friends (fun friendDebts friend => JS.set friendDebts friend 0%float) [].

(** The body of the expenses loop of [summaryData], on the state
    [(totalSpent, youPaid, friendDebts)]. *)
Definition summaryStep (st : float * float * JS.object) (expense : Expense.t)
    : float * float * JS.object :=
  let '(totalSpent, youPaid, friendDebts) := st in
  let totalSpent := (totalSpent + amount expense)%float in
  let numberOfParticipants := List.length (splitWith expense) in
  if Nat.eqb numberOfParticipants 0 then (totalSpent, youPaid, friendDebts)
  else
    let share := (amount expense / JS.Number numberOfParticipants)%float in
    if String.eqb (paidBy expense) You then
      let youPaid := (youPaid + amount expense)%float in
      let friendDebts :=
        JS.forEach (splitWith expense)
          (fun friendDebts person =>
             if negb (String.eqb person You)
             then JS.set friendDebts person
                    (JS.or_zero (JS.get friendDebts person) + share)%float
             else friendDebts)
          friendDebts in
      (totalSpent, youPaid, friendDebts)
    else
      let payer := paidBy expense in
      if JS.includes (splitWith expense) You
      then (totalSpent, youPaid,
            JS.set friendDebts payer
              (JS.or_zero (JS.get friendDebts payer) - share)%float)
      else (totalSpent, youPaid, friendDebts).

(** The body of the loop over [Object.values(friendDebts)], on the state
    [(totalYouOwe, totalYouAreOwed)]. *)
Definition totalsStep (st : float * float) (amount : float) : float * float :=
  let '(totalYouOwe, totalYouAreOwed) := st in
  if JS.gt amount 0
  then (totalYouOwe, (totalYouAreOwed + amount)%float)
  else ((totalYouOwe + JS.Math_abs amount)%float, totalYouAreOwed).

(** The state of [summaryData] after its expenses loop. *)
Definition summaryLoop (expenses : list Expense.t) : float * float * JS.object :=
  JS.forEach expenses summaryStep
    (0%float, 0%float, initialDebts (getUniqueFriends expenses)).

Definition summaryData (expenses : list Expense.t) : Summary :=
  let '(totalSpent, youPaid, friendDebts) := summaryLoop expenses in
  let '(totalYouOwe, totalYouAreOwed) :=
    JS.forEach (JS.Object_values friendDebts) totalsStep (0%float, 0%float) in
  let netBalance := (totalYouAreOwed - totalYouOwe)%float in
  {| totalSpent := totalSpent;
     youPaid := youPaid;
     youOwe := totalYouOwe;
     youAreOwed := totalYouAreOwed;
     netBalance := netBalance |}.

(** The body of the expenses loop of [friendBalances]. *)
Definition balanceStep (friendDebts : JS.object) (expense : Expense.t)
    : JS.object :=
  let numberOfParticipants := List.length (splitWith expense) in
  if Nat.eqb numberOfParticipants 0 then friendDebts
  else
    let share := (amount expense / JS.Number numberOfParticipants)%float in
    if String.eqb (paidBy expense) You then
      JS.forEach (splitWith expense)
        (fun friendDebts person =>
           if negb (String.eqb person You)
           then JS.set friendDebts person
                  (JS.or_zero (JS.get friendDebts person) + share)%float
           else friendDebts)
        friendDebts
    else
      let payer := paidBy expense in
      if JS.includes (splitWith expense) You
      then JS.set friendDebts payer
             (JS.or_zero (JS.get friendDebts payer) - share)%float
      else friendDebts.

(** [friendDebts] as [friendBalances] has it after its expenses loop: the
    accumulated balance of every counterparty. *)
Definition friendDebts (expenses : list Expense.t) : JS.object :=
  JS.forEach expenses balanceStep (initialDebts (getUniqueFriends expenses)).

(** The loop over [Object.entries(friendDebts)] that fills [balances]. *)
Definition emit (friendDebts : JS.object) : list FriendBalance.t :=
  JS.forEach (JS.Object_entries friendDebts)
    (fun balances '(name, amount) =>
       if JS.gt (JS.Math_abs amount) 0.01
       then balances ++ [FriendBalance.mk name amount]
       else balances)
    [].

Section Collation.

(** [localeCompare] is the host's collation; only its sign is used. *)
Variable localeCompare : string -> string -> comparison.

Definition byName (a b : FriendBalance.t) : comparison :=
  localeCompare (FriendBalance.name a) (FriendBalance.name b).

Definition friendBalances (expenses : list Expense.t) : list FriendBalance.t :=
  JS.Array_sort byName (emit (friendDebts expenses)).

End Collation.

End Dashboard.

(** ** The settle-up screen

    Its [friendBalances] repeats the dashboard's, with the collection of the
    participants written in place. *)

Module SettleUp.

Import Expense.

(** The body of the expenses loop of [friendBalances]. *)
Definition balanceStep (friendDebts : JS.object) (expense : Expense.t)
    : JS.object :=
  let numberOfParticipants := List.length (splitWith expense) in
  if Nat.eqb numberOfParticipants 0 then friendDebts
  else
    let share := (amount expense / JS.Number numberOfParticipants)%float in
    if String.eqb (paidBy expense) You then
      JS.forEach (splitWith expense)
        (fun friendDebts person =>
           if negb (String.eqb person You)
           then JS.set friendDebts person
                  (JS.or_zero (JS.get friendDebts person) + share)%float
           else friendDebts)
        friendDebts
    else
      let payer := paidBy expense in
      if JS.includes (splitWith expense) You
      then JS.set friendDebts payer
             (JS.or_zero (JS.get friendDebts payer) - share)%float
      else friendDebts.

Section Collation.

Variable localeCompare : string -> string -> comparison.

Definition friendBalances (expenses : list Expense.t) : list FriendBalance.t :=
  let participants :=
    JS.forEach expenses
      (fun participants expense =>
         let participants :=
           if negb (String.eqb (paidBy expense) You)
           then JS.Set_add participants (paidBy expense)
           else participants in
         JS.forEach (splitWith expense)
           (fun participants person =>
              if negb (String.eqb person You)
              then JS.Set_add participants person
              else participants)
           participants)
      [] in
  let friends := participants in
  let friendDebts :=
    JS.forEach friends
      (fun friendDebts friend => JS.set friendDebts friend 0%float) [] in
  let friendDebts := JS.forEach expenses balanceStep friendDebts in
  let balances :=
    JS.forEach (JS.Object_entries friendDebts)
      (fun balances '(name, amount) =>
         if JS.gt (JS.Math_abs amount) 0.01
         then balances ++ [FriendBalance.mk name amount]
         else balances)
      [] in
  JS.Array_sort
    (fun a b => localeCompare (FriendBalance.name a) (FriendBalance.name b))
    balances.

End Collation.

End SettleUp.

(** ** The expenses loops with division as a partial operation

    The same loop bodies, where dividing by a participant count of zero is an
    error instead of a number. *)

Module Checked.

Import Expense.

Definition bind {A B : Type} (x : option A) (f : A -> option B) : option B :=
  match x with
  | Some a => f a
  | None => None
  end.

Notation "x <- c ;; k" := (bind c (fun x => k))
  (at level 61, c at next level, right associativity).

Definition divide (x : float) (n : nat) : option float :=
  if Nat.eqb n 0 then None else Some (x / JS.Number n)%float.

(** A loop whose body may fail. *)
Definition forEach {A S : Type} (xs : list A) (body : S -> A -> option S)
    (s : S) : option S :=
  fold_left (fun st x => s' <- st ;; body s' x) xs (Some s).

Definition balanceStep (friendDebts : JS.object) (expense : Expense.t)
    : option JS.object :=
  let numberOfParticipants := List.length (splitWith expense) in
  if Nat.eqb numberOfParticipants 0 then Some friendDebts
  else
    share <- divide (amount expense) numberOfParticipants ;;
    if String.eqb (paidBy expense) You then
      Some (JS.forEach (splitWith expense)
              (fun friendDebts person =>
                 if negb (String.eqb person You)
                 then JS.set friendDebts person
                        (JS.or_zero (JS.get friendDebts person) + share)%float
                 else friendDebts)
              friendDebts)
    else
      let payer := paidBy expense in
      if JS.includes (splitWith expense) You
      then Some (JS.set friendDebts payer
                   (JS.or_zero (JS.get friendDebts payer) - share)%float)
      else Some friendDebts.

Definition summaryStep (st : float * float * JS.object) (expense : Expense.t)
    : option (float * float * JS.object) :=
  let '(totalSpent, youPaid, friendDebts) := st in
  let totalSpent := (totalSpent + amount expense)%float in
  let numberOfParticipants := List.length (splitWith expense) in
  if Nat.eqb numberOfParticipants 0 then Some (totalSpent, youPaid, friendDebts)
  else
    share <- divide (amount expense) numberOfParticipants ;;
    if String.eqb (paidBy expense) You then
      let youPaid := (youPaid + amount expense)%float in
      let friendDebts :=
        JS.forEach (splitWith expense)
          (fun friendDebts person =>
             if negb (String.eqb person You)
             then JS.set friendDebts person
                    (JS.or_zero (JS.get friendDebts person) + share)%float
             else friendDebts)
          friendDebts in
      Some (totalSpent, youPaid, friendDebts)
    else
      let payer := paidBy expense in
      if JS.includes (splitWith expense) You
      then Some (totalSpent, youPaid,
                 JS.set friendDebts payer
                   (JS.or_zero (JS.get friendDebts payer) - share)%float)
      else Some (totalSpent, youPaid, friendDebts).

Definition friendDebts (expenses : list Expense.t) : option JS.object :=
  forEach expenses balanceStep
    (Dashboard.initialDebts (Dashboard.getUniqueFriends expenses)).

Definition summaryLoop (expenses : list Expense.t)
    : option (float * float * JS.object) :=
  forEach expenses summaryStep
    (0%float, 0%float,
     Dashboard.initialDebts (Dashboard.getUniqueFriends expenses)).

End Checked.

(** ** The payment-link builder, [handlePaymentRedirect] *)

Module PaymentUtils.

Local Open Scope string_scope.

Inductive PaymentType : Type := cashapp | venmo.

Record PaymentInfo : Type := mkPaymentInfo {
  type : PaymentType;
  username : string;
  amount : option float;
  note : option string
}.

(** What the function asks of the platform, in order. *)
Inductive Call : Type :=
| window_open (url : string)
| Linking_canOpenURL (url : string)
| Linking_openURL (url : string).

Definition url_of (c : Call) : string :=
  match c with
  | window_open url | Linking_canOpenURL url | Linking_openURL url => url
  end.

(** The character class [a-zA-Z0-9@$]. *)
Definition allowed (c : ascii) : bool :=
  let n := nat_of_ascii c in
  (Nat.leb 97 n && Nat.leb n 122) || (Nat.leb 65 n && Nat.leb n 90)
  || (Nat.leb 48 n && Nat.leb n 57) || Ascii.eqb c "@" || Ascii.eqb c "$".

(** [username.replace(/[^a-zA-Z0-9@$]/g, '')] *)
Definition cleanUsername (username : string) : string :=
  JS.keep allowed username.

Section Builder.

(** The conversions the template literals apply: a number to its decimal
    string, and [encodeURIComponent]. *)
Variable Number_toString : float -> string.
Variable encodeURIComponent : string -> string.

(** [amount ? a : ''] *)
Definition ifAmount (amount : option float) (a : float -> string) : string :=
  match amount with
  | Some x => if JS.truthy x then a x else ""
  | None => ""
  end.

(** [note ? a : ''] *)
Definition ifNote (note : option string) (a : string -> string) : string :=
  match note with
  | Some EmptyString | None => ""
  | Some s => a s
  end.

(** The table [urls], and [webUrls], which is written the same. *)
Definition urls (info : PaymentInfo) (ty : PaymentType) : string :=
  let cleanUsername := cleanUsername (username info) in
  match ty with
  | cashapp =>
      "https://cash.app/" ++ cleanUsername
      ++ ifAmount (amount info) (fun a => "/" ++ Number_toString a)
  | venmo =>
      "https://venmo.com/" ++ JS.replace_first "@" cleanUsername
      ++ ifAmount (amount info)
           (fun a => "?txn=pay&amount=" ++ Number_toString a)
  end.

Definition webUrls (info : PaymentInfo) (ty : PaymentType) : string :=
  let cleanUsername := cleanUsername (username info) in
  match ty with
  | cashapp =>
      "https://cash.app/" ++ cleanUsername
      ++ ifAmount (amount info) (fun a => "/" ++ Number_toString a)
  | venmo =>
      "https://venmo.com/" ++ JS.replace_first "@" cleanUsername
      ++ ifAmount (amount info)
           (fun a => "?txn=pay&amount=" ++ Number_toString a)
  end.

(** The table [schemes] of mobile deep links. *)
Definition schemes (info : PaymentInfo) (ty : PaymentType) : string :=
  let cleanUsername := cleanUsername (username info) in
  match ty with
  | cashapp =>
      "cashapp://cash.app/" ++ cleanUsername
      ++ ifAmount (amount info) (fun a => "/" ++ Number_toString a)
  | venmo =>
      "venmo://paycharge?txn=pay&recipients="
      ++ JS.replace_first "@" cleanUsername
      ++ ifAmount (amount info) (fun a => "&amount=" ++ Number_toString a)
      ++ ifNote (note info) (fun n => "&note=" ++ encodeURIComponent n)
  end.

(** The calls [handlePaymentRedirect] makes.  [web] is [Platform.OS ===
    'web']; [canOpen] is the answer of [Linking.canOpenURL], [None] when it
    throws (the [catch] then only logs). *)
Definition handlePaymentRedirect (web : bool) (canOpen : option bool)
    (paymentInfo : PaymentInfo) : list Call :=
  if web then [window_open (urls paymentInfo (type paymentInfo))]
  else
    Linking_canOpenURL (schemes paymentInfo (type paymentInfo))
    :: match canOpen with
       | Some true => [Linking_openURL (schemes paymentInfo (type paymentInfo))]
       | Some false => [Linking_openURL (webUrls paymentInfo (type paymentInfo))]
       | None => []
       end.

End Builder.

End PaymentUtils.

(** ** Sample comparisons

    [String.prototype.localeCompare] belongs to the host, not to the
    repository, and the screens above take the comparison as a parameter.
    Two comparisons serve as samples where a statement needs one: the
    ordinary lexicographic comparison, and an alphabetical comparison that
    ignores case first, as a locale's collation does on unaccented
    letters. *)
Definition lexicographic : string -> string -> comparison := String.compare.

Definition lower (c : ascii) : ascii :=
  let n := nat_of_ascii c in
  if Nat.leb 65 n && Nat.leb n 90 then ascii_of_nat (n + 32) else c.

Fixpoint lowercase (s : string) : string :=
  match s with
  | EmptyString => EmptyString
  | String c s' => String (lower c) (lowercase s')
  end.

(** Letters compare without their case; names equal but for case compare
    with the lower-case letter first. *)
Definition alphabetical (x y : string) : comparison :=
  match String.compare (lowercase x) (lowercase y) with
  | Eq => String.compare y x
  | c => c
  end.

(** ** Vocabulary of the statements *)

Module Spec.

(** A running total: [total += x] for each [x] in turn, from [0]. *)
Definition sum (xs : list float) : float :=
  fold_left PrimFloat.add xs 0%float.

Definition positive (x : float) : bool := JS.gt x 0.

(** What the list shows: the balances beyond the epsilon. *)
Definition shown (x : float) : bool := JS.gt (JS.Math_abs x) 0.01.

Definition toBalance (entry : string * float) : FriendBalance.t :=
  FriendBalance.mk (fst entry) (snd entry).

(** The share of an expense. *)
Definition share (expense : Expense.t) : float :=
  (Expense.amount expense
   / JS.Number (List.length (Expense.splitWith expense)))%float.

Definition paidByYou (expense : Expense.t) : bool :=
  String.eqb (Expense.paidBy expense) You.

Definition isSplit (expense : Expense.t) : bool :=
  negb (Nat.eqb (List.length (Expense.splitWith expense)) 0).

(** The amounts of the expenses that satisfy [p]. *)
Definition amountsWhere (p : Expense.t -> bool) (expenses : list Expense.t)
    : list float :=
  map Expense.amount (filter p expenses).

(** A comparison that orders: [Gt] one way means not [Gt] the other way, and
    "not after" is transitive. *)
Definition notAfter {A : Type} (cmp : A -> A -> comparison) (x y : A) : Prop :=
  cmp x y <> Gt.

Record Ordering {A : Type} (cmp : A -> A -> comparison) : Prop := {
  ordering_total : forall x y, cmp x y = Gt -> cmp y x <> Gt;
  ordering_trans : forall x y z,
      notAfter cmp x y -> notAfter cmp y z -> notAfter cmp x z
}.

(** The two updates of the expenses loops: a participant of an expense paid
    by 'You' is credited, the payer of an expense 'You' takes part in is
    debited. *)
Definition credit (share : float) (friendDebts : JS.object) (person : string)
    : JS.object :=
  if negb (String.eqb person You)
  then JS.set friendDebts person
         (JS.or_zero (JS.get friendDebts person) + share)%float
  else friendDebts.

Definition debit (share : float) (friendDebts : JS.object) (payer : string)
    : JS.object :=
  JS.set friendDebts payer (JS.or_zero (JS.get friendDebts payer) - share)%float.

(** A balance credited [n] times in a row. *)
Fixpoint creditTimes (n : nat) (share : float) (balance : option float)
    : option float :=
  match n with
  | O => balance
  | S n' => creditTimes n' share (Some (JS.or_zero balance + share)%float)
  end.

(** What the calculator keeps true of [friendDebts]: the names are
    distinct and 'You' is not one of them. *)
Definition wellFormed (friendDebts : JS.object) : Prop :=
  NoDup (JS.own_names friendDebts) /\ ~ In You (JS.own_names friendDebts).

(** Names in strictly ascending lexicographic order. *)
Definition ascending (names : list string) : Prop :=
  StronglySorted (fun a b => String.compare a b = Lt) names.

Definition names (balances : list FriendBalance.t) : list string :=
  map FriendBalance.name balances.

(** The characters of a string. *)
Definition chars (s : string) : list ascii := list_ascii_of_string s.

End Spec.

(** ** Sample inputs *)

Module Examples.

Definition expense (amount : float) (paidBy : string) (splitWith : list string)
    : Expense.t :=
  Expense.mk "1" "Dinner" amount "2024-05-01" paidBy splitWith.

(** One cent paid by 'You' for Alex. *)
Definition oneCent : Expense.t := expense 0.01 "You" ["Alex"].


(** The scenario of the spec. *)
Definition scenario : list Expense.t :=
  [expense 120 "You" ["You"; "Alex"; "Maria"];
   expense 45 "Alex" ["You"; "Alex"]].

Definition threeWays : Expense.t := expense 90 "You" ["Zed"; "Amy"; "Mo"].

Definition friendPaid : Expense.t := expense 60 "Amy" ["You"; "Amy"].

(** A credit of 25 and a debit of 25 with the same friend. *)
Definition settled : list Expense.t :=
  [expense 50 "You" ["You"; "Bo"]; expense 50 "Bo" ["You"; "Bo"]].

Definition venmoHandle : PaymentUtils.PaymentInfo :=
  PaymentUtils.mkPaymentInfo PaymentUtils.venmo "@@bob" None None.

Definition cashHandle : PaymentUtils.PaymentInfo :=
  PaymentUtils.mkPaymentInfo PaymentUtils.cashapp "$al ice/../x?y=1" None None.

End Examples.

(** ** The shape of a payment link *)

Module Link.

Import PaymentUtils.

Local Open Scope string_scope.

(** Where a URL is built: in the tables [urls] and [webUrls], or in
    [schemes]. *)
Inductive Table : Type := WebTable | SchemeTable.

(** What is written before the username. *)
Definition before (table : Table) (ty : PaymentType) : string :=
  match table, ty with
  | WebTable, cashapp => "https://cash.app/"
  | WebTable, venmo => "https://venmo.com/"
  | SchemeTable, cashapp => "cashapp://cash.app/"
  | SchemeTable, venmo => "venmo://paycharge?txn=pay&recipients="
  end.

(** The part of a URL that comes from the username. *)
Definition handle (ty : PaymentType) (username : string) : string :=
  match ty with
  | cashapp => cleanUsername username
  | venmo => JS.replace_first "@" (cleanUsername username)
  end.

Definition withUsername (info : PaymentInfo) (username : string) : PaymentInfo :=
  mkPaymentInfo (type info) username (amount info) (note info).

Section Conversions.

Variable Number_toString : float -> string.
Variable encodeURIComponent : string -> string.

(** What is written after the username: the amount and the note. *)
Definition after (table : Table) (ty : PaymentType)
    (amount : option float) (note : option string) : string :=
  match table, ty with
  | WebTable, cashapp | SchemeTable, cashapp =>
      ifAmount amount (fun a => "/" ++ Number_toString a)
  | WebTable, venmo =>
      ifAmount amount (fun a => "?txn=pay&amount=" ++ Number_toString a)
  | SchemeTable, venmo =>
      ifAmount amount (fun a => "&amount=" ++ Number_toString a)
      ++ ifNote note (fun n => "&note=" ++ encodeURIComponent n)
  end.

(** A URL made of the fixed text of its table, the handle and the amount
    and note. *)
Definition shaped (info : PaymentInfo) (url : string) : Prop :=
  exists table : Table,
    url = before table (type info)
          ++ handle (type info) (username info)
          ++ after table (type info) (amount info) (note info).

End Conversions.

(** Conversions for the sample inputs, which carry neither amount nor
    note. *)
Definition noDigits (x : float) : string := "".

Definition asIs (s : string) : string := s.

End Link.

(** ** More of the runtime *)

Module Host.

(** [s.startsWith(c)] for a one-character [c]. *)
Definition startsWith (s : string) (c : ascii) : bool :=
  match s with
  | String a _ => Ascii.eqb a c
  | EmptyString => false
  end.

(** [s.substring(1)] *)
Definition substring1 (s : string) : string :=
  match s with
  | String _ s' => s'
  | EmptyString => EmptyString
  end.

(** [s.has(x)] and [s.delete(x)] on a [Set<string>]. *)
Definition Set_has (s : list string) (x : string) : bool :=
  existsb (String.eqb x) s.

Definition Set_delete (s : list string) (x : string) : list string :=
  filter (fun y => negb (String.eqb y x)) s.

(** [xs.map((x, index) => f(x, index))] *)
Fixpoint map_from {A B : Type} (index : nat) (f : A -> nat -> B) (xs : list A)
    : list B :=
  match xs with
  | [] => []
  | x :: xs' => f x index :: map_from (S index) f xs'
  end.

Definition map_index {A B : Type} (f : A -> nat -> B) (xs : list A) : list B :=
  map_from 0 f xs.

(** What [sort] makes of the number a comparison function returns: its
    sign, [NaN] counting as [0]. *)
Definition comparator (v : float) : comparison :=
  if (v <? 0)%float then Lt else if (0 <? v)%float then Gt else Eq.

(** [x !== y] on numbers. *)
Definition differs (x y : float) : bool := negb (x =? y)%float.

(** [xs[i]], [None] standing for [undefined]. *)
Definition at_index {A : Type} (xs : list A) (i : nat) : option A :=
  nth_error xs i.

End Host.

(** ** The dashboard's spending by category and payment click *)

Module Categories.

Import Expense.

(** What [categories] holds under a title: a number, or, for a title that
    names a member inherited from [Object.prototype], a text: the text of
    that member followed by the digits of the amounts added to it. *)
Inductive value : Type :=
| Num (x : float)
| Text (member : string) (amounts : list float).

Record CategorySpending : Type := mk {
  id : string;
  name : string;
  amount : value;
  color : option string
}.

Definition categoryColors : list string :=
  ["#5D3FD3"; "#FF9500"; "#34C759"; "#007AFF"; "#8E8E93"; "#FF3B30"; "#AF52DE"].

(** [categoryColors[index % categoryColors.length]], for the index [map]
    passes. *)
Definition getCategoryColor (index : nat) : option string :=
  Host.at_index categoryColors (index mod List.length categoryColors).

(** What [categories[categoryName]] reads: an own property, a member
    inherited from [Object.prototype], or [undefined]. *)
Inductive member : Type :=
| Own (v : value)
| Inherited
| Undefined.

Definition read (categories : JS.record value) (categoryName : string) : member :=
  match JS.get categories categoryName with
  | Some v => Own v
  | None => if JS.inherited categoryName then Inherited else Undefined
  end.

(** [(m || 0) + amount]: a number is added to, [NaN] and [undefined]
    counting as [0]; a text or an inherited member, both truthy, has the
    digits of the amount appended. *)
Definition plus (categoryName : string) (m : member) (amount : float) : value :=
  match m with
  | Own (Num x) => Num (JS.or_zero (Some x) + amount)%float
  | Own (Text inheritedMember amounts) => Text inheritedMember (amounts ++ [amount])
  | Inherited => Text categoryName [amount]
  | Undefined => Num (JS.or_zero None + amount)%float
  end.

(** The body of the loop of [expenseCategories]. *)
Definition categoryStep (categories : JS.record value) (expense : Expense.t)
    : JS.record value :=
  let categoryName := title expense in
  JS.set categories categoryName
    (plus categoryName (read categories categoryName) (Expense.amount expense)).

(** The record [categories] after the loop. *)
Definition categories (expenses : list Expense.t) : JS.record value :=
  JS.forEach expenses categoryStep [].

(** The number that [b.amount - a.amount] makes of an amount: a text that
    is no numeral is [NaN]. *)
Definition toNumber (v : value) : float :=
  match v with
  | Num x => x
  | Text _ _ => nan
  end.

Definition expenseCategories (expenses : list Expense.t)
    : list CategorySpending :=
  JS.Array_sort
    (fun a b => Host.comparator (toNumber (amount b) - toNumber (amount a))%float)
    (Host.map_index
       (fun '(name, amount) index => mk name name amount (getCategoryColor index))
       (JS.Object_entries (categories expenses))).

End Categories.

Module DashboardPayment.

Import PaymentUtils.

(** The [paymentInfo] that [handlePaymentClick] builds from a row of the
    list. *)
Definition paymentInfo (friend : FriendBalance.t) : PaymentInfo :=
  let ty :=
    if Host.startsWith (FriendBalance.name friend) "$" then cashapp else venmo in
  mkPaymentInfo ty (FriendBalance.name friend)
    (if Host.differs (FriendBalance.amount friend) 0
     then Some (JS.Math_abs (FriendBalance.amount friend))
     else None)
    None.

Section Builder.

Variable Number_toString : float -> string.
Variable encodeURIComponent : string -> string.

Definition handlePaymentClick (web : bool) (canOpen : option bool)
    (friend : FriendBalance.t) : list Call :=
  handlePaymentRedirect Number_toString encodeURIComponent web canOpen
    (paymentInfo friend).

End Builder.

End DashboardPayment.

(** ** The settle-up screen: settled balances, payment methods, payment *)

Module Settled.

(** The state set by the 'Mark Settled' button of [markAsSettled]. *)
Definition markAsSettled (settledBalances : list string) (friendName : string)
    : list string :=
  let newSettledBalances := settledBalances in
  JS.Set_add newSettledBalances friendName.

Definition unmarkAsSettled (settledBalances : list string) (friendName : string)
    : list string :=
  let newSettledBalances := settledBalances in
  Host.Set_delete newSettledBalances friendName.

Definition activeBalances (friendBalances : list FriendBalance.t)
    (settledBalances : list string) : list FriendBalance.t :=
  filter (fun balance => negb (Host.Set_has settledBalances (FriendBalance.name balance)))
    friendBalances.

Definition settledBalancesList (friendBalances : list FriendBalance.t)
    (settledBalances : list string) : list FriendBalance.t :=
  filter (fun balance => Host.Set_has settledBalances (FriendBalance.name balance))
    friendBalances.

End Settled.

Module PaymentMethods.

Import PaymentUtils.

Local Open Scope string_scope.

Record PaymentMethod : Type := mk {
  id : string;
  type : PaymentType;
  username : string;
  displayName : string
}.

(** [paymentMethods] after the settle-up screen's [loadPaymentMethods] has
    read [data?.Payment] ([None] for a missing one): a string with neither
    prefix leaves the state as it was. *)
Definition loadedBySettleUp (Payment : option string)
    (paymentMethods : list PaymentMethod) : list PaymentMethod :=
  match Payment with
  | None | Some EmptyString => []
  | Some paymentString =>
      let isVenmo := Host.startsWith paymentString "@" in
      let isCashApp := Host.startsWith paymentString "$" in
      if isVenmo || isCashApp
      then [mk "1" (if isCashApp then cashapp else venmo) paymentString
              (if isCashApp then "Cash App" else "Venmo")]
      else paymentMethods
  end.


(** The [paymentInfo] the 'Continue' button of [handlePayment] passes on. *)
Definition paymentInfo (friend : FriendBalance.t) (paymentMethod : PaymentMethod)
    : PaymentInfo :=
  let isOwedToYou := JS.gt (FriendBalance.amount friend) 0 in
  let amount := JS.Math_abs (FriendBalance.amount friend) in
  mkPaymentInfo (type paymentMethod) (username paymentMethod) (Some amount)
    (Some ("Payment for shared expenses - "
           ++ (if isOwedToYou
               then FriendBalance.name friend ++ " owes you"
               else "You owe " ++ FriendBalance.name friend))).

Section Builder.

Variable Number_toString : float -> string.
Variable encodeURIComponent : string -> string.

Definition handlePayment (web : bool) (canOpen : option bool)
    (friend : FriendBalance.t) (paymentMethod : PaymentMethod) : list Call :=
  handlePaymentRedirect Number_toString encodeURIComponent web canOpen
    (paymentInfo friend paymentMethod).

End Builder.

End PaymentMethods.

(** ** Vocabulary of the further statements *)

Module Ledger.

Import Expense.

(** A friend is part of an expense as its payer or as a participant. *)
Definition involves (friend : string) (expense : Expense.t) : bool :=
  String.eqb (paidBy expense) friend
  || existsb (String.eqb friend) (splitWith expense).

(** An expense the expenses loops pass over: split among nobody, or paid
    by a friend and split without 'You'. *)
Definition passedOver (expense : Expense.t) : bool :=
  Nat.eqb (List.length (splitWith expense)) 0
  || (negb (String.eqb (paidBy expense) You)
      && negb (JS.includes (splitWith expense) You)).

(** What one expense does to the balance of one friend. *)
Definition onFriend (friend : string) (balance : option float)
    (expense : Expense.t) : option float :=
  if Nat.eqb (List.length (splitWith expense)) 0 then balance
  else if String.eqb (paidBy expense) You then
    if String.eqb friend You then balance
    else Spec.creditTimes (count_occ string_dec (splitWith expense) friend)
           (Spec.share expense) balance
  else if JS.includes (splitWith expense) You then
    if String.eqb (paidBy expense) friend
    then Some (JS.or_zero balance - Spec.share expense)%float
    else balance
  else balance.

(** A name under which a plain object stores a number: any but
    [__proto__]. *)
Definition storable (name : string) : bool := negb (String.eqb name JS.proto).

(** The names in order of first appearance. *)
Definition distinct (names : list string) : list string :=
  fold_left JS.Set_add names [].

(** The running total of a category: each amount added to what is there,
    [NaN] counting as [0]. *)
Definition runningTotal (amounts : list float) : float :=
  fold_left (fun total x => (JS.or_zero (Some total) + x)%float) amounts 0%float.

Definition titled (title : string) (expense : Expense.t) : bool :=
  String.eqb (Expense.title expense) title.

(** A comparison that tells names apart: no two different names compare
    as equal. *)
Definition tellsApart (cmp : string -> string -> comparison) : Prop :=
  forall x y : string, cmp x y <> Gt -> cmp y x <> Gt -> x = y.

End Ledger.

Module MoreExamples.

(** An expense 'You' paid for a friend named [__proto__], Amy and Mo. *)
Definition protoSplit : Expense.t :=
  Examples.expense 90 "You" ["__proto__"; "Amy"; "Mo"].

(** An expense a friend named [__proto__] paid for 'You' and themselves. *)
Definition protoPaid : Expense.t :=
  Examples.expense 60 "__proto__" ["You"; "__proto__"].

(** An expense 'You' paid for Zed, amy and Mo. *)
Definition mixedCase : Expense.t :=
  Examples.expense 90 "You" ["Zed"; "amy"; "Mo"].

(** Paid by Zed for Bo: 'You' takes no part. *)
Definition amongFriends : Expense.t := Examples.expense 80 "Zed" ["Zed"; "Bo"].

End MoreExamples.

Module LinkText.

Import PaymentUtils.

Local Open Scope string_scope.

(** The prefix a payment method of each type is recognised by. *)
Definition prefix (ty : PaymentType) : string :=
  match ty with
  | cashapp => "$"
  | venmo => ""
  end.

Section Conversions.

Variable Number_toString : float -> string.
Variable encodeURIComponent : string -> string.

(** The amount as each table writes it. *)
Definition amountText (table : Link.Table) (ty : PaymentType) (amount : float)
    : string :=
  match table, ty with
  | Link.WebTable, cashapp | Link.SchemeTable, cashapp =>
      "/" ++ Number_toString amount
  | Link.WebTable, venmo => "?txn=pay&amount=" ++ Number_toString amount
  | Link.SchemeTable, venmo => "&amount=" ++ Number_toString amount
  end.

(** The note, which only the Venmo deep link carries. *)
Definition noteText (table : Link.Table) (ty : PaymentType) (note : string)
    : string :=
  match table, ty with
  | Link.SchemeTable, venmo => "&note=" ++ encodeURIComponent note
  | _, _ => ""
  end.

End Conversions.

End LinkText.

(** * Properties *)

Create HintDb js discriminated.

(** ** Plain objects *)

Section ObjectFacts.

Context {V : Type}.

Implicit Types (o : JS.record V) (k : string) (v : V).

Lemma get_put_same o k v : JS.get (JS.put o k v) k = Some v.
Proof.
  induction o as [|[k' v'] o IH]; simpl.
  - now rewrite String.eqb_refl.
  - destruct (String.eqb k' k) eqn:E; simpl; rewrite E; auto.
Qed.

Lemma get_put_other o k k' v :
  k' <> k -> JS.get (JS.put o k v) k' = JS.get o k'.
Proof.
  intros Hne.
  induction o as [|[k0 v0] o IH]; simpl.
  - destruct (String.eqb_spec k k'); congruence.
  - destruct (String.eqb_spec k0 k) as [->|Hk]; simpl.
    + destruct (String.eqb_spec k k'); congruence.
    + now rewrite IH.
Qed.

(** Nothing is stored at [__proto__]. *)
Lemma set_proto o v : JS.set o JS.proto v = o.
Proof. reflexivity. Qed.

Lemma set_put o k v : k <> JS.proto -> JS.set o k v = JS.put o k v.
Proof.
  intros Hk. unfold JS.set. destruct (String.eqb_spec k JS.proto); congruence.
Qed.

Lemma get_set_same o k v :
  k <> JS.proto -> JS.get (JS.set o k v) k = Some v.
Proof. intros Hk. rewrite set_put by exact Hk. apply get_put_same. Qed.

Lemma get_set_other o k k' v :
  k' <> k -> JS.get (JS.set o k v) k' = JS.get o k'.
Proof.
  intros Hne. unfold JS.set. destruct (String.eqb k JS.proto); [reflexivity|].
  now apply get_put_other.
Qed.

Lemma names_put o k v k' :
  In k' (JS.own_names (JS.put o k v)) <-> k' = k \/ In k' (JS.own_names o).
Proof.
  unfold JS.own_names.
  induction o as [|[k0 v0] o IH]; simpl.
  - intuition congruence.
  - destruct (String.eqb_spec k0 k) as [->|Hk]; simpl.
    + intuition congruence.
    + rewrite IH. intuition congruence.
Qed.

Lemma keys_set o k v k' :
  In k' (JS.own_names (JS.set o k v))
  <-> (k' = k /\ k <> JS.proto) \/ In k' (JS.own_names o).
Proof.
  unfold JS.set. destruct (String.eqb_spec k JS.proto) as [E|Hne].
  - intuition congruence.
  - rewrite names_put. intuition congruence.
Qed.

Lemma names_put_NoDup o k v :
  NoDup (JS.own_names o) -> NoDup (JS.own_names (JS.put o k v)).
Proof.
  unfold JS.own_names.
  induction o as [|[k0 v0] o IH]; simpl; intros Hnd.
  - constructor; [intros [] | constructor].
  - inversion Hnd as [|? ? Hnotin Hnd']; subst.
    destruct (String.eqb_spec k0 k) as [->|Hk]; simpl.
    + now constructor.
    + constructor; [|now apply IH].
      intros Hin. apply (names_put o k v k0) in Hin.
      destruct Hin as [->|Hin]; [congruence | exact (Hnotin Hin)].
Qed.

Lemma keys_set_NoDup o k v :
  NoDup (JS.own_names o) -> NoDup (JS.own_names (JS.set o k v)).
Proof.
  intros Hnd. unfold JS.set. destruct (String.eqb k JS.proto); [exact Hnd|].
  now apply names_put_NoDup.
Qed.

Lemma put_new_name o k v :
  ~ In k (JS.own_names o) ->
  JS.own_names (JS.put o k v) = JS.own_names o ++ [k].
Proof.
  unfold JS.own_names.
  induction o as [|[k0 v0] o IH]; simpl; intros Hk; [reflexivity|].
  destruct (String.eqb_spec k0 k) as [->|Hne]; [tauto|].
  simpl. f_equal. apply IH. tauto.
Qed.

Lemma put_old_name o k v :
  In k (JS.own_names o) -> JS.own_names (JS.put o k v) = JS.own_names o.
Proof.
  unfold JS.own_names.
  induction o as [|[k0 v0] o IH]; simpl; intros Hk; [tauto|].
  destruct (String.eqb_spec k0 k) as [->|Hne]; [reflexivity|].
  simpl. f_equal. apply IH. destruct Hk; [contradiction | assumption].
Qed.

Lemma set_new_key o k v :
  k <> JS.proto -> ~ In k (JS.own_names o) ->
  JS.own_names (JS.set o k v) = JS.own_names o ++ [k].
Proof. intros Hk Hnot. rewrite set_put by exact Hk. now apply put_new_name. Qed.

(** Writing to a name the object has, or to [__proto__], creates no
    property. *)
Lemma set_old_key o k v :
  k = JS.proto \/ In k (JS.own_names o) ->
  JS.own_names (JS.set o k v) = JS.own_names o.
Proof.
  unfold JS.set. destruct (String.eqb_spec k JS.proto) as [E|Hne];
    [reflexivity|].
  intros [E|Hin]; [contradiction | now apply put_old_name].
Qed.

Lemma get_Some_key o k v : JS.get o k = Some v -> In k (JS.own_names o).
Proof.
  unfold JS.own_names.
  induction o as [|[k0 v0] o IH]; simpl; [discriminate|].
  destruct (String.eqb_spec k0 k) as [->|Hk]; auto.
Qed.

Lemma get_None_iff o k : JS.get o k = None <-> ~ In k (JS.own_names o).
Proof.
  unfold JS.own_names.
  induction o as [|[k0 v0] o IH]; simpl; [tauto|].
  destruct (String.eqb_spec k0 k) as [->|Hk].
  - split; [discriminate | tauto].
  - rewrite IH. tauto.
Qed.

(** With distinct property names, the properties are the graph of
    [JS.get]. *)
Lemma own_get o k v :
  NoDup (JS.own_names o) -> In (k, v) o <-> JS.get o k = Some v.
Proof.
  unfold JS.own_names.
  induction o as [|[k0 v0] o IH]; simpl; intros Hnd.
  - split; [intros [] | discriminate].
  - inversion Hnd as [|? ? Hnotin Hnd']; subst.
    destruct (String.eqb_spec k0 k) as [->|Hk].
    + split.
      * intros [E|Hin]; [congruence|].
        exfalso. apply Hnotin. apply (in_map fst) in Hin. exact Hin.
      * intros E. left. congruence.
    + rewrite <- (IH Hnd'). split.
      * intros [E|Hin]; [congruence | exact Hin].
      * intros Hin. now right.
Qed.

End ObjectFacts.

(** ** The order in which properties are listed *)

Section ListedFacts.

Context {A : Type} (key : A -> string).

Lemma insert_index_perm (x : A) (l : list A) :
  Permutation (x :: l) (JS.insert_index key x l).
Proof.
  induction l as [|y l IH]; simpl; [reflexivity|].
  destruct (N.leb (JS.index_of (key x)) (JS.index_of (key y))); [reflexivity|].
  rewrite perm_swap. now constructor.
Qed.

Lemma sort_index_perm (l : list A) :
  Permutation (fold_right (JS.insert_index key) [] l) l.
Proof.
  induction l as [|x l IH]; simpl; [constructor|].
  rewrite <- insert_index_perm. now constructor.
Qed.

Lemma partition_perm (f : A -> bool) (l : list A) :
  Permutation (filter f l ++ filter (fun x => negb (f x)) l) l.
Proof.
  induction l as [|x l IH]; simpl; [constructor|].
  destruct (f x); simpl.
  - now constructor.
  - rewrite <- Permutation_middle. now constructor.
Qed.

(** Listing reorders the properties and loses none. *)
Lemma listed_perm (l : list A) : Permutation (JS.listed key l) l.
Proof.
  unfold JS.listed. rewrite sort_index_perm. apply partition_perm.
Qed.

Lemma listed_In (l : list A) (x : A) : In x (JS.listed key l) <-> In x l.
Proof.
  split; intros H; (eapply Permutation_in; [|exact H]);
    [|symmetry]; apply listed_perm.
Qed.

(** Without array indices among the names, the order is the creation
    order. *)
Lemma listed_ordinary (l : list A) :
  Forall (fun x => JS.is_index (key x) = false) l -> JS.listed key l = l.
Proof.
  intros Hall. unfold JS.listed.
  assert (Hnone : filter (fun x => JS.is_index (key x)) l = []).
  { induction Hall as [|x l Hx _ IH]; simpl; [reflexivity|]. now rewrite Hx. }
  assert (Hevery : filter (fun x => negb (JS.is_index (key x))) l = l).
  { clear Hnone. induction Hall as [|x l Hx _ IH]; simpl; [reflexivity|].
    rewrite Hx. simpl. now rewrite IH. }
  now rewrite Hnone, Hevery.
Qed.

Lemma insert_index_map (x : A) (l : list A) :
  map key (JS.insert_index key x l)
  = JS.insert_index (fun k : string => k) (key x) (map key l).
Proof.
  induction l as [|y l IH]; simpl; [reflexivity|].
  destruct (N.leb (JS.index_of (key x)) (JS.index_of (key y))); simpl;
    [reflexivity | now rewrite IH].
Qed.

Lemma filter_map_key (p : string -> bool) (l : list A) :
  map key (filter (fun x => p (key x)) l) = filter p (map key l).
Proof.
  induction l as [|x l IH]; simpl; [reflexivity|].
  destruct (p (key x)); simpl; now rewrite IH.
Qed.

(** The order of listing is decided by the names alone. *)
Lemma listed_map (l : list A) :
  map key (JS.listed key l) = JS.listed (fun k : string => k) (map key l).
Proof.
  unfold JS.listed. rewrite map_app. f_equal.
  - rewrite <- (filter_map_key JS.is_index).
    induction (filter (fun x => JS.is_index (key x)) l) as [|x t IH]; simpl;
      [reflexivity|].
    now rewrite insert_index_map, IH.
  - apply (filter_map_key (fun k => negb (JS.is_index k))).
Qed.

End ListedFacts.

Section EntriesFacts.

Context {V : Type}.

Implicit Types (o : JS.record V) (k : string) (v : V).

Lemma entries_perm o : Permutation (JS.Object_entries o) o.
Proof. apply listed_perm. Qed.

Lemma keys_perm o : Permutation (JS.Object_keys o) (JS.own_names o).
Proof. unfold JS.Object_keys, JS.own_names. apply Permutation_map, entries_perm. Qed.

Lemma keys_listed o :
  JS.Object_keys o = JS.listed (fun k : string => k) (JS.own_names o).
Proof. apply (listed_map (fun e : string * V => fst e)). Qed.

Lemma entries_get o k v :
  NoDup (JS.own_names o) ->
  In (k, v) (JS.Object_entries o) <-> JS.get o k = Some v.
Proof.
  intros Hnd. rewrite <- (own_get o k v Hnd). apply listed_In.
Qed.

End EntriesFacts.

#[export] Hint Resolve keys_set_NoDup : js.

(** ** Loops *)

Section LoopFacts.

Context {A S : Type}.

Lemma forEach_nil (body : S -> A -> S) (s : S) : JS.forEach [] body s = s.
Proof. reflexivity. Qed.

Lemma forEach_cons (body : S -> A -> S) (x : A) (xs : list A) (s : S) :
  JS.forEach (x :: xs) body s = JS.forEach xs body (body s x).
Proof. reflexivity. Qed.

(** A property every turn of a loop keeps holds at its end. *)
Lemma forEach_invariant (P : S -> Prop) (body : S -> A -> S) (xs : list A) :
  (forall s x, In x xs -> P s -> P (body s x)) ->
  forall s, P s -> P (JS.forEach xs body s).
Proof.
  induction xs as [|x xs IH]; intros Hstep s Hs; [exact Hs|].
  rewrite forEach_cons. apply IH.
  - intros s' x' Hin. apply Hstep. now right.
  - apply Hstep; [now left | exact Hs].
Qed.

End LoopFacts.

(** ** Sorting *)

Section SortFacts.

Context {A : Type} (cmp : A -> A -> comparison).

Lemma sort_insert_perm (x : A) (l : list A) :
  Permutation (x :: l) (JS.sort_insert cmp x l).
Proof.
  induction l as [|y l IH]; simpl; [reflexivity|].
  destruct (cmp x y); try reflexivity.
  rewrite perm_swap. now constructor.
Qed.

(** Whatever the comparison, sorting only reorders. *)
Lemma Array_sort_perm (l : list A) : Permutation l (JS.Array_sort cmp l).
Proof.
  induction l as [|x l IH]; simpl; [constructor|].
  rewrite <- sort_insert_perm. now constructor.
Qed.

Lemma Array_sort_In (l : list A) (x : A) :
  In x (JS.Array_sort cmp l) <-> In x l.
Proof.
  split; apply Permutation_in;
    [symmetry | idtac]; apply Array_sort_perm.
Qed.

Hypothesis cmp_ordering : Spec.Ordering cmp.

Lemma sort_insert_sorted (x : A) (l : list A) :
  StronglySorted (Spec.notAfter cmp) l ->
  StronglySorted (Spec.notAfter cmp) (JS.sort_insert cmp x l).
Proof.
  induction 1 as [|y l Hl IH Hy]; simpl.
  - repeat constructor.
  - destruct (cmp x y) eqn:E.
    + constructor; [now constructor|].
      assert (Hxy : Spec.notAfter cmp x y) by (unfold Spec.notAfter; congruence).
      constructor; [exact Hxy|].
      eapply Forall_impl; [|exact Hy].
      intros z Hz. eapply (Spec.ordering_trans cmp_ordering); eauto.
    + constructor; [now constructor|].
      assert (Hxy : Spec.notAfter cmp x y) by (unfold Spec.notAfter; congruence).
      constructor; [exact Hxy|].
      eapply Forall_impl; [|exact Hy].
      intros z Hz. eapply (Spec.ordering_trans cmp_ordering); eauto.
    + constructor; [exact IH|].
      assert (Hyx : Spec.notAfter cmp y x)
        by (apply (Spec.ordering_total cmp_ordering); exact E).
      eapply Permutation_Forall; [apply sort_insert_perm|].
      now constructor.
Qed.

(** With a comparison that orders, the result is sorted. *)
Lemma Array_sort_sorted (l : list A) :
  StronglySorted (Spec.notAfter cmp) (JS.Array_sort cmp l).
Proof.
  induction l as [|x l IH]; simpl; [constructor|].
  now apply sort_insert_sorted.
Qed.

End SortFacts.

(** ** The expenses loops *)

Section StepFacts.

Import Expense.

Implicit Types (friendDebts : JS.object) (expense : Expense.t).

Lemma balanceStep_eq friendDebts expense :
  Dashboard.balanceStep friendDebts expense =
  if Nat.eqb (List.length (splitWith expense)) 0 then friendDebts
  else if String.eqb (paidBy expense) You
  then JS.forEach (splitWith expense) (Spec.credit (Spec.share expense)) friendDebts
  else if JS.includes (splitWith expense) You
  then Spec.debit (Spec.share expense) friendDebts (paidBy expense)
  else friendDebts.
Proof. reflexivity. Qed.

(** The settle-up loop body is the dashboard's. *)
Lemma settleUp_balanceStep friendDebts expense :
  SettleUp.balanceStep friendDebts expense =
  Dashboard.balanceStep friendDebts expense.
Proof. reflexivity. Qed.

(** The loop of [summaryData] updates [friendDebts] as the loop of
    [friendBalances] does. *)
Lemma summaryStep_eq (totalSpent youPaid : float) friendDebts expense :
  Dashboard.summaryStep (totalSpent, youPaid, friendDebts) expense =
  ((totalSpent + amount expense)%float,
   if Spec.paidByYou expense && Spec.isSplit expense
   then (youPaid + amount expense)%float else youPaid,
   Dashboard.balanceStep friendDebts expense).
Proof.
  unfold Dashboard.summaryStep, Dashboard.balanceStep, Spec.paidByYou, Spec.isSplit.
  destruct (Nat.eqb (List.length (splitWith expense)) 0); simpl.
  - now rewrite andb_false_r.
  - destruct (String.eqb (paidBy expense) You); simpl; [reflexivity|].
    now destruct (JS.includes (splitWith expense) You).
Qed.

Lemma credit_get_other (share : float) friendDebts (person q : string) :
  q <> person -> JS.get (Spec.credit share friendDebts person) q = JS.get friendDebts q.
Proof.
  intros Hq. unfold Spec.credit.
  destruct (negb (String.eqb person You)); [|reflexivity].
  now apply get_set_other.
Qed.

Lemma credit_get_same (share : float) friendDebts (person : string) :
  person <> You -> person <> JS.proto ->
  JS.get (Spec.credit share friendDebts person) person =
  Some (JS.or_zero (JS.get friendDebts person) + share)%float.
Proof.
  intros Hp Hproto. unfold Spec.credit.
  destruct (String.eqb_spec person You); [contradiction|]. simpl.
  now apply get_set_same.
Qed.

(** Nobody is credited under the name [__proto__]. *)
(** Crediting the participants leaves everyone else as they were. *)
Lemma creditAll_get_other (share : float) (people : list string) :
  forall friendDebts (q : string),
    ~ In q people \/ q = You ->
    JS.get (JS.forEach people (Spec.credit share) friendDebts) q = JS.get friendDebts q.
Proof.
  induction people as [|p people IH]; intros friendDebts q Hq; [reflexivity|].
  rewrite forEach_cons, IH.
  - destruct Hq as [Hq | ->].
    + apply credit_get_other. intros ->. apply Hq. now left.
    + unfold Spec.credit. destruct (String.eqb_spec p You) as [->|Hp]; simpl;
        [reflexivity | now apply get_set_other; congruence].
  - destruct Hq as [Hq | ->]; [left | now right].
    intros Hin. apply Hq. now right.
Qed.

Lemma creditAll_get (share : float) (people : list string) :
  forall friendDebts (person : string),
    person <> You -> person <> JS.proto ->
    JS.get (JS.forEach people (Spec.credit share) friendDebts) person =
    Spec.creditTimes (count_occ string_dec people person) share
      (JS.get friendDebts person).
Proof.
  induction people as [|p people IH]; intros friendDebts person Hp Hproto;
    [reflexivity|].
  rewrite forEach_cons, IH by assumption. simpl.
  destruct (string_dec p person) as [->|Hne].
  - simpl. now rewrite credit_get_same.
  - rewrite credit_get_other by congruence. reflexivity.
Qed.

(** A participant listed once is credited once. *)
Lemma creditAll_get_once (share : float) (people : list string)
    friendDebts (person : string) :
  NoDup people -> In person people -> person <> You -> person <> JS.proto ->
  JS.get (JS.forEach people (Spec.credit share) friendDebts) person =
  Some (JS.or_zero (JS.get friendDebts person) + share)%float.
Proof.
  intros Hnd Hin Hp Hproto. rewrite creditAll_get by assumption.
  assert (E : count_occ string_dec people person = 1).
  { apply (proj1 (NoDup_count_occ' string_dec people) Hnd). exact Hin. }
  now rewrite E.
Qed.

Lemma credit_wellFormed (share : float) friendDebts (person : string) :
  Spec.wellFormed friendDebts -> Spec.wellFormed (Spec.credit share friendDebts person).
Proof.
  intros [Hnd Hyou]. unfold Spec.credit.
  destruct (String.eqb_spec person You) as [->|Hp]; simpl; [now split|].
  split; [now apply keys_set_NoDup|].
  intros Hin. apply keys_set in Hin. destruct Hin as [[E _]|Hin]; [congruence|tauto].
Qed.

Lemma debit_wellFormed (share : float) friendDebts (payer : string) :
  payer <> You ->
  Spec.wellFormed friendDebts -> Spec.wellFormed (Spec.debit share friendDebts payer).
Proof.
  intros Hp [Hnd Hyou]. unfold Spec.debit.
  split; [now apply keys_set_NoDup|].
  intros Hin. apply keys_set in Hin. destruct Hin as [[E _]|Hin]; [congruence|tauto].
Qed.

Lemma balanceStep_wellFormed friendDebts expense :
  Spec.wellFormed friendDebts ->
  Spec.wellFormed (Dashboard.balanceStep friendDebts expense).
Proof.
  intros Hwf. rewrite balanceStep_eq.
  destruct (Nat.eqb (List.length (splitWith expense)) 0); [exact Hwf|].
  destruct (String.eqb_spec (paidBy expense) You) as [E|Hne].
  - apply forEach_invariant; [|exact Hwf].
    intros s x _. apply credit_wellFormed.
  - destruct (JS.includes (splitWith expense) You); [|exact Hwf].
    now apply debit_wellFormed.
Qed.

Lemma initialDebts_wellFormed (friends : list string) :
  ~ In You friends -> Spec.wellFormed (Dashboard.initialDebts friends).
Proof.
  intros Hyou. unfold Dashboard.initialDebts.
  apply (forEach_invariant
           (fun o => Spec.wellFormed o /\ forall k, In k (JS.own_names o) -> In k friends)).
  - intros o friend Hin [[Hnd Hy] Hsub]. split; [split|].
    + now apply keys_set_NoDup.
    + intros H. apply keys_set in H. destruct H as [[E _]|H]; [|tauto].
      apply Hyou. now rewrite E.
    + intros k H. apply keys_set in H. destruct H as [[-> _]|H]; auto.
  - split; [split|]; simpl; [constructor | tauto | tauto].
Qed.

Lemma Set_add_In (s : list string) (x y : string) :
  In y (JS.Set_add s x) -> y = x \/ In y s.
Proof.
  unfold JS.Set_add. destruct (existsb (String.eqb x) s); [now right|].
  rewrite in_app_iff. simpl. intuition congruence.
Qed.

Lemma getUniqueFriends_not_You (expenses : list Expense.t) :
  ~ In You (Dashboard.getUniqueFriends expenses).
Proof.
  unfold Dashboard.getUniqueFriends.
  apply (forEach_invariant (fun participants => ~ In You participants));
    [|intros []].
  intros participants expense _ Hp.
  apply (forEach_invariant (fun participants => ~ In You participants)).
  - intros s person _ Hs.
    destruct (String.eqb_spec person You) as [E|Hne]; simpl; [exact Hs|].
    intros Hin. apply Set_add_In in Hin. destruct Hin; [congruence|tauto].
  - destruct (String.eqb_spec (paidBy expense) You) as [E|Hne]; simpl; [exact Hp|].
    intros Hin. apply Set_add_In in Hin. destruct Hin; [congruence|tauto].
Qed.

#[local] Hint Resolve balanceStep_wellFormed initialDebts_wellFormed
  getUniqueFriends_not_You : js.

(** The accumulated balances have distinct names, none of them 'You'. *)
Lemma friendDebts_wellFormed (expenses : list Expense.t) :
  Spec.wellFormed (Dashboard.friendDebts expenses).
Proof.
  unfold Dashboard.friendDebts.
  apply forEach_invariant; auto with js.
Qed.

(** No write of the loops stores anything under [__proto__]. *)
Lemma set_keeps_proto_out (o : JS.object) (k : string) (v : float) :
  ~ In JS.proto (JS.own_names o) -> ~ In JS.proto (JS.own_names (JS.set o k v)).
Proof.
  intros Ho Hin. apply keys_set in Hin. destruct Hin as [[E Hk]|Hin];
    [congruence | exact (Ho Hin)].
Qed.

Lemma friendDebts_no_proto (expenses : list Expense.t) :
  JS.get (Dashboard.friendDebts expenses) JS.proto = None.
Proof.
  apply get_None_iff. unfold Dashboard.friendDebts.
  apply (forEach_invariant (fun o => ~ In JS.proto (JS.own_names o))).
  - intros o e _ Ho. rewrite balanceStep_eq.
    destruct (Nat.eqb (List.length (splitWith e)) 0); [exact Ho|].
    destruct (String.eqb (paidBy e) You).
    + apply (forEach_invariant (fun o => ~ In JS.proto (JS.own_names o)));
        [|exact Ho].
      intros o' p _ Ho'. unfold Spec.credit.
      destruct (negb (String.eqb p You)); [|exact Ho'].
      now apply set_keeps_proto_out.
    + destruct (JS.includes (splitWith e) You); [|exact Ho].
      now apply set_keeps_proto_out.
  - unfold Dashboard.initialDebts.
    apply (forEach_invariant (fun o => ~ In JS.proto (JS.own_names o)));
      [|intros []].
    intros o f _ Ho. now apply set_keeps_proto_out.
Qed.

End StepFacts.

(** ** The totals and the emitted list *)

Section SummaryFacts.

Import Expense.

(** The three components of the state of [summaryData] after its expenses
    loop, from any starting state. *)
Lemma summaryLoop_from (expenses : list Expense.t) :
  forall (totalSpent youPaid : float) (friendDebts : JS.object),
    JS.forEach expenses Dashboard.summaryStep (totalSpent, youPaid, friendDebts) =
    (fold_left PrimFloat.add (map amount expenses) totalSpent,
     fold_left PrimFloat.add
       (Spec.amountsWhere (fun e => Spec.paidByYou e && Spec.isSplit e) expenses)
       youPaid,
     JS.forEach expenses Dashboard.balanceStep friendDebts).
Proof.
  unfold Spec.amountsWhere.
  induction expenses as [|e expenses IH]; intros totalSpent youPaid friendDebts;
    [reflexivity|].
  rewrite !forEach_cons, summaryStep_eq, IH. simpl.
  now destruct (Spec.paidByYou e && Spec.isSplit e).
Qed.

Lemma summaryLoop_eq (expenses : list Expense.t) :
  Dashboard.summaryLoop expenses =
  (Spec.sum (map amount expenses),
   Spec.sum (Spec.amountsWhere (fun e => Spec.paidByYou e && Spec.isSplit e) expenses),
   Dashboard.friendDebts expenses).
Proof. unfold Dashboard.summaryLoop. now rewrite summaryLoop_from. Qed.

(** The loop over the values splits them by sign. *)
Lemma totals_from (values : list float) :
  forall totalYouOwe totalYouAreOwed : float,
    JS.forEach values Dashboard.totalsStep (totalYouOwe, totalYouAreOwed) =
    (fold_left PrimFloat.add
       (map JS.Math_abs (filter (fun x => negb (Spec.positive x)) values))
       totalYouOwe,
     fold_left PrimFloat.add (filter Spec.positive values) totalYouAreOwed).
Proof.
  induction values as [|x values IH]; intros totalYouOwe totalYouAreOwed;
    [reflexivity|].
  rewrite forEach_cons. unfold Dashboard.totalsStep at 2.
  fold (Spec.positive x). simpl.
  destruct (Spec.positive x); simpl; now rewrite IH.
Qed.

Lemma summaryData_eq (expenses : list Expense.t) :
  let values := JS.Object_values (Dashboard.friendDebts expenses) in
  let youOwe :=
    Spec.sum (map JS.Math_abs (filter (fun x => negb (Spec.positive x)) values)) in
  let youAreOwed := Spec.sum (filter Spec.positive values) in
  Dashboard.summaryData expenses =
  Dashboard.mkSummary
    (Spec.sum (map amount expenses))
    (Spec.sum (Spec.amountsWhere (fun e => Spec.paidByYou e && Spec.isSplit e) expenses))
    youOwe youAreOwed (youAreOwed - youOwe)%float.
Proof.
  unfold Dashboard.summaryData. rewrite summaryLoop_eq. cbv zeta.
  now rewrite totals_from.
Qed.

Lemma emit_from (entries : list (string * float)) :
  forall balances : list FriendBalance.t,
    JS.forEach entries
      (fun balances '(name, amount) =>
         if JS.gt (JS.Math_abs amount) 0.01
         then balances ++ [FriendBalance.mk name amount]
         else balances)
      balances =
    balances ++ map Spec.toBalance (filter (fun e => Spec.shown (snd e)) entries).
Proof.
  induction entries as [|[name amount] entries IH]; intros balances.
  - simpl. now rewrite app_nil_r.
  - rewrite forEach_cons, IH. simpl. unfold Spec.shown at 2.
    destruct (JS.gt (JS.Math_abs amount) 0.01); simpl; [|reflexivity].
    now rewrite <- app_assoc.
Qed.

(** The list before it is sorted: the entries beyond the epsilon, in the
    order of the properties. *)
Lemma emit_eq (friendDebts : JS.object) :
  Dashboard.emit friendDebts =
  map Spec.toBalance
    (filter (fun e => Spec.shown (snd e)) (JS.Object_entries friendDebts)).
Proof. unfold Dashboard.emit. now rewrite emit_from. Qed.

Lemma friendBalances_perm (cmp : string -> string -> comparison)
    (expenses : list Expense.t) :
  Permutation
    (Dashboard.friendBalances cmp expenses)
    (map Spec.toBalance
       (filter (fun e => Spec.shown (snd e))
          (JS.Object_entries (Dashboard.friendDebts expenses)))).
Proof.
  unfold Dashboard.friendBalances. rewrite <- emit_eq.
  symmetry. apply Array_sort_perm.
Qed.

(** Membership in the emitted list. *)
Lemma friendBalances_In (cmp : string -> string -> comparison)
    (expenses : list Expense.t) (name : string) (amount : float) :
  In (FriendBalance.mk name amount) (Dashboard.friendBalances cmp expenses) <->
  JS.get (Dashboard.friendDebts expenses) name = Some amount
  /\ Spec.shown amount = true.
Proof.
  destruct (friendDebts_wellFormed expenses) as [Hnd _].
  rewrite <- (entries_get _ name amount Hnd).
  unfold Dashboard.friendBalances. rewrite Array_sort_In, emit_eq, in_map_iff.
  split.
  - intros [[k v] [E Hin]]. apply filter_In in Hin. simpl in *.
    unfold Spec.toBalance in E. simpl in E. injection E as -> ->. exact Hin.
  - intros [Hin Hs]. exists (name, amount). split; [reflexivity|].
    apply filter_In. now split.
Qed.

Lemma settleUp_friendBalances (cmp : string -> string -> comparison)
    (expenses : list Expense.t) :
  SettleUp.friendBalances cmp expenses = Dashboard.friendBalances cmp expenses.
Proof. reflexivity. Qed.

End SummaryFacts.

(** ** Numbers *)

(** Two numbers that [===] tells apart are different. *)
Ltac numbers_differ H :=
  vm_compute in H;
  match type of H with
  | ?a = ?b =>
      apply (f_equal (fun x => PrimFloat.eqb x b)) in H;
      vm_compute in H; discriminate H
  end.

(** [x || 0] is [x] for every number other than [0], [-0] and [NaN]. *)
Lemma or_zero_truthy (v : float) :
  JS.truthy v = true -> JS.or_zero (Some v) = v.
Proof. intros H. simpl. now rewrite H. Qed.

Lemma or_zero_initial (balance : option float) :
  balance = Some 0%float \/ balance = None -> JS.or_zero balance = 0%float.
Proof. now intros [-> | ->]. Qed.

Lemma initialDebts_get (friends : list string) (k : string) :
  JS.get (Dashboard.initialDebts friends) k = Some 0%float
  \/ JS.get (Dashboard.initialDebts friends) k = None.
Proof.
  unfold Dashboard.initialDebts.
  apply (forEach_invariant
           (fun o => JS.get o k = Some 0%float \/ JS.get o k = None)).
  - intros o friend _ Ho.
    destruct (string_dec k friend) as [->|Hne].
    + destruct (string_dec friend JS.proto) as [->|Hproto]; [exact Ho|].
      left. now apply get_set_same.
    + now rewrite get_set_other.
  - now right.
Qed.

(** ** Summary totals *)

Section Summary.

Import Expense Dashboard.

(** C1, as stated, fails: one cent paid by 'You' for Alex is a balance of
    0.01, which [youAreOwed] counts and which the emitted list, suppressing
    balances of absolute value at most 0.01, leaves out. *)
Lemma youAreOwed_counts_suppressed_balance :
  youAreOwed (summaryData [Examples.oneCent]) <>
  Spec.sum (filter Spec.positive
              (map FriendBalance.amount
                 (friendBalances lexicographic [Examples.oneCent]))).
Proof. intros H. numbers_differ H. Qed.

(** C1, amended: for every expense list, [netBalance] is [youAreOwed -
    youOwe]; [youAreOwed] is the running sum of the positive accumulated
    balances of all counterparties and [youOwe] the running sum of the
    absolute values of those that are not positive, taken over [friendDebts]
    itself, of which the emitted list shows only the balances of absolute
    value above 0.01. *)
Theorem summary_consistent_with_friendDebts
    (cmp : string -> string -> comparison) (expenses : list Expense.t) :
  let summary := summaryData expenses in
  let balances := JS.Object_values (friendDebts expenses) in
  netBalance summary = (youAreOwed summary - youOwe summary)%float
  /\ youAreOwed summary = Spec.sum (filter Spec.positive balances)
  /\ youOwe summary =
     Spec.sum (map JS.Math_abs (filter (fun x => negb (Spec.positive x)) balances))
  /\ Permutation
       (friendBalances cmp expenses)
       (map Spec.toBalance
          (filter (fun entry => Spec.shown (snd entry))
             (JS.Object_entries (friendDebts expenses)))).
Proof.
  cbv zeta. rewrite summaryData_eq. cbv zeta. simpl.
  repeat split. apply friendBalances_perm.
Qed.



(** Where every expense is split among someone, as the data model asks,
    [youPaid] is the running sum of the amounts 'You' paid. *)
Lemma youPaid_when_all_split (expenses : list Expense.t) :
  Forall (fun e => splitWith e <> []) expenses ->
  youPaid (summaryData expenses) =
  Spec.sum (Spec.amountsWhere Spec.paidByYou expenses).
Proof.
  intros Hall. rewrite summaryData_eq. cbv zeta. simpl.
  unfold Spec.amountsWhere. f_equal. f_equal.
  apply filter_ext_in. intros e Hin.
  rewrite Forall_forall in Hall. specialize (Hall e Hin).
  unfold Spec.isSplit. destruct (splitWith e); [contradiction|].
  simpl. apply andb_true_r.
Qed.

(** The scenario of the spec: Alex owes 17.5 and Maria 40; 'You' paid 120
    of the 165 spent. *)
Example scenario_summary :
  friendBalances lexicographic Examples.scenario
  = [FriendBalance.mk "Alex" 17.5; FriendBalance.mk "Maria" 40]
  /\ summaryData Examples.scenario = mkSummary 165 120 0 57.5 57.5.
Proof. split; reflexivity. Qed.

End Summary.

(** ** The per-expense rules *)

Section Rules.

Import Expense.

Lemma share_of_ninety_by_three (id title date paidBy : string) (a b c : string) :
  Spec.share (Expense.mk id title 90 date paidBy [a; b; c]) = 30%float.
Proof. reflexivity. Qed.

Lemma share_of_sixty_by_two (id title date paidBy : string) (a b : string) :
  Spec.share (Expense.mk id title 60 date paidBy [a; b]) = 30%float.
Proof. reflexivity. Qed.

(** C3 fails on the code for a participant named [__proto__]: of the
    expense of 90 that 'You' paid for [__proto__], Amy and Mo,
    [getUniqueFriends] returns the three names, but [friendDebts] gets no
    property [__proto__], neither from the initialisation nor from the
    crediting, so that only Amy and Mo are credited their 30 and
    [youAreOwed] is 60. *)
Theorem participant_named_proto_is_not_credited :
  Dashboard.getUniqueFriends [MoreExamples.protoSplit] = ["__proto__"; "Amy"; "Mo"]
  /\ JS.get (Dashboard.friendDebts [MoreExamples.protoSplit]) "__proto__" = None
  /\ Dashboard.friendDebts [MoreExamples.protoSplit]
     = [("Amy", 30%float); ("Mo", 30%float)]
  /\ Dashboard.friendBalances lexicographic [MoreExamples.protoSplit]
     = [FriendBalance.mk "Amy" 30; FriendBalance.mk "Mo" 30]
  /\ SettleUp.friendBalances lexicographic [MoreExamples.protoSplit]
     = [FriendBalance.mk "Amy" 30; FriendBalance.mk "Mo" 30]
  /\ Dashboard.youAreOwed (Dashboard.summaryData [MoreExamples.protoSplit])
     = 60%float.
Proof. repeat split; reflexivity. Qed.

(** C4 fails on the code for a payer named [__proto__]: of the expense of
    60 that [__proto__] paid for 'You' and themselves, nothing is debited:
    [friendDebts] stays empty, no balance is listed and [youOwe] is 0,
    while the 60 count in [totalSpent]. *)
Theorem payer_named_proto_is_not_debited :
  JS.includes (splitWith MoreExamples.protoPaid) You = true
  /\ Dashboard.friendDebts [MoreExamples.protoPaid] = []
  /\ snd (Dashboard.summaryLoop [MoreExamples.protoPaid]) = []
  /\ Dashboard.friendBalances lexicographic [MoreExamples.protoPaid] = []
  /\ Dashboard.summaryData [MoreExamples.protoPaid]
     = Dashboard.mkSummary 60 0 0 0 0.
Proof. repeat split; reflexivity. Qed.

(** X16: for a participant other than 'You' and [__proto__] who has an
    accumulated balance, processing an expense paid by 'You' whose
    [splitWith] lists the participant once sets that balance to
    [(balance || 0) + amount / n], in the dashboard's two loops and in the
    settle-up loop; listed several times, the participant is credited once
    per listing; and the expense of 90 split among A, B and C alone leaves
    each of them with exactly 30. *)
Theorem sentinel_paid_crediting :
  (forall (expense : Expense.t) (totalSpent youPaid : float)
          (friendDebts : JS.object) (person : string) (balance : float),
      paidBy expense = You ->
      NoDup (splitWith expense) ->
      In person (splitWith expense) ->
      person <> You ->
      person <> JS.proto ->
      JS.get friendDebts person = Some balance ->
      let share :=
        (amount expense / JS.Number (List.length (splitWith expense)))%float in
      let credited := Some (JS.or_zero (Some balance) + share)%float in
      JS.get (Dashboard.balanceStep friendDebts expense) person = credited
      /\ JS.get (snd (Dashboard.summaryStep (totalSpent, youPaid, friendDebts) expense))
           person = credited
      /\ JS.get (SettleUp.balanceStep friendDebts expense) person = credited)
  /\ (forall (expense : Expense.t) (friendDebts : JS.object) (person : string)
             (balance : float),
         paidBy expense = You ->
         1 <= List.length (splitWith expense) ->
         person <> You ->
         person <> JS.proto ->
         JS.get friendDebts person = Some balance ->
         JS.get (Dashboard.balanceStep friendDebts expense) person =
         Spec.creditTimes
           (count_occ string_dec (splitWith expense) person)
           (amount expense / JS.Number (List.length (splitWith expense)))%float
           (Some balance))
  /\ (forall (id title date : string) (A B C person : string),
         NoDup [A; B; C] ->
         ~ In You [A; B; C] ->
         ~ In JS.proto [A; B; C] ->
         In person [A; B; C] ->
         JS.get (Dashboard.friendDebts [Expense.mk id title 90 date You [A; B; C]])
           person = Some 30%float).
Proof.
  assert (Hstep : forall expense friendDebts person,
             paidBy expense = You ->
             NoDup (splitWith expense) ->
             In person (splitWith expense) ->
             person <> You ->
             person <> JS.proto ->
             JS.get (Dashboard.balanceStep friendDebts expense) person =
             Some (JS.or_zero (JS.get friendDebts person) + Spec.share expense)%float).
  { intros expense friendDebts person Hpaid Hnd Hin Hp Hproto.
    rewrite balanceStep_eq.
    destruct (Nat.eqb_spec (List.length (splitWith expense)) 0) as [E|_].
    { destruct (splitWith expense); [destruct Hin | discriminate E]. }
    rewrite Hpaid, String.eqb_refl.
    now apply creditAll_get_once. }
  split; [|split].
  - intros expense totalSpent youPaid friendDebts person balance
      Hpaid Hnd Hin Hp Hproto Hown.
    cbv zeta. rewrite <- Hown, summaryStep_eq.
    repeat split; now apply Hstep.
  - intros expense friendDebts person balance Hpaid Hn Hp Hproto Hown.
    rewrite balanceStep_eq.
    destruct (Nat.eqb_spec (List.length (splitWith expense)) 0) as [E|_]; [lia|].
    rewrite Hpaid, String.eqb_refl, <- Hown.
    now apply creditAll_get.
  - intros id title date A B C person Hnd Hyou Hproto Hin.
    unfold Dashboard.friendDebts. rewrite forEach_cons, forEach_nil.
    rewrite Hstep; simpl; auto.
    + rewrite share_of_ninety_by_three.
      rewrite or_zero_initial by apply initialDebts_get. reflexivity.
    + intros ->. now apply Hyou.
    + intros ->. now apply Hproto.
Qed.

(** X16 at the expense of 90 paid by 'You' for Zed, Amy and Mo. *)
Lemma sentinel_paid_crediting_witness :
  JS.get (Dashboard.balanceStep [("Amy", 12.5%float)] Examples.threeWays) "Amy"
  = Some 42.5%float
  /\ JS.get (Dashboard.friendDebts [Examples.threeWays]) "Mo" = Some 30%float.
Proof.
  split.
  - refine (proj1 (proj1 sentinel_paid_crediting Examples.threeWays 0%float 0%float
                     [("Amy", 12.5%float)] "Amy" 12.5%float eq_refl _ _ _ _ eq_refl)).
    + repeat constructor; simpl; intuition discriminate.
    + simpl. auto.
    + discriminate.
    + discriminate.
  - refine (proj2 (proj2 sentinel_paid_crediting) "1" "Dinner" "2024-05-01"
              "Zed" "Amy" "Mo" "Mo" _ _ _ _).
    + repeat constructor; simpl; intuition discriminate.
    + simpl. intuition discriminate.
    + simpl. intuition discriminate.
    + simpl. auto.
Defined.

(** X17: processing an expense not paid by 'You' adds its amount to
    [totalSpent] and leaves [youPaid]; when 'You' is in [splitWith] and the
    payer, other than [__proto__], has an accumulated balance, that balance
    becomes [(balance || 0) - amount / n] and every other balance stays as
    it was; when 'You' is not in [splitWith], [friendDebts] stays as it
    was.  The expense of 60 paid by A and split between 'You' and A alone
    leaves A with exactly -30. *)
Theorem friend_paid_rule :
  (forall (expense : Expense.t) (totalSpent youPaid : float)
          (friendDebts : JS.object),
      paidBy expense <> You ->
      let after := Dashboard.summaryStep (totalSpent, youPaid, friendDebts) expense in
      let share :=
        (amount expense / JS.Number (List.length (splitWith expense)))%float in
      fst (fst after) = (totalSpent + amount expense)%float
      /\ snd (fst after) = youPaid
      /\ (In You (splitWith expense) ->
          paidBy expense <> JS.proto ->
          forall balance : float,
            JS.get friendDebts (paidBy expense) = Some balance ->
            JS.get (snd after) (paidBy expense) =
            Some (JS.or_zero (Some balance) - share)%float
            /\ forall other : string,
                 other <> paidBy expense ->
                 JS.get (snd after) other = JS.get friendDebts other)
      /\ (~ In You (splitWith expense) -> snd after = friendDebts))
  /\ (forall (id title date : string) (A : string),
         A <> You ->
         A <> JS.proto ->
         JS.get (Dashboard.friendDebts [Expense.mk id title 60 date A [You; A]]) A
         = Some (-30)%float).
Proof.
  assert (Hincl : forall people, JS.includes people You = true <-> In You people).
  { intros people. unfold JS.includes. rewrite existsb_exists. split.
    - intros [x [Hin E]]. apply String.eqb_eq in E. now subst.
    - intros Hin. exists You. split; [exact Hin | apply String.eqb_refl]. }
  split.
  - intros expense totalSpent youPaid friendDebts Hpaid. cbv zeta.
    rewrite summaryStep_eq. simpl.
    unfold Spec.paidByYou. destruct (String.eqb_spec (paidBy expense) You) as [E|_];
      [contradiction|]. simpl.
    split; [reflexivity|]. split; [reflexivity|].
    rewrite balanceStep_eq.
    destruct (String.eqb_spec (paidBy expense) You) as [E|_]; [contradiction|].
    split.
    + intros Hin Hproto balance Hown.
      destruct (Nat.eqb_spec (List.length (splitWith expense)) 0) as [E|_].
      { destruct (splitWith expense); [destruct Hin | discriminate E]. }
      rewrite (proj2 (Hincl _) Hin). unfold Spec.debit. rewrite Hown. split.
      * now apply get_set_same.
      * intros other Hother. now apply get_set_other.
    + intros Hnot.
      destruct (Nat.eqb (List.length (splitWith expense)) 0); [reflexivity|].
      destruct (JS.includes (splitWith expense) You) eqn:E; [|reflexivity].
      apply Hincl in E. contradiction.
  - intros id title date A HA Hproto.
    unfold Dashboard.friendDebts. rewrite forEach_cons, forEach_nil.
    rewrite balanceStep_eq. simpl.
    destruct (String.eqb_spec A You) as [E|_]; [contradiction|].
    unfold JS.includes. simpl. unfold Spec.debit.
    rewrite get_set_same by exact Hproto. rewrite share_of_sixty_by_two.
    rewrite or_zero_initial by apply initialDebts_get. reflexivity.
Qed.

(** X17 at the expense of 60 paid by Amy and split between 'You' and Amy. *)
Lemma friend_paid_rule_witness :
  JS.get (snd (Dashboard.summaryStep (100%float, 0%float, [("Amy", 40%float)])
                 Examples.friendPaid)) "Amy" = Some 10%float
  /\ JS.get (Dashboard.friendDebts [Examples.friendPaid]) "Amy" = Some (-30)%float.
Proof.
  split.
  - refine (proj1 (proj1 (proj2 (proj2 (proj1 friend_paid_rule Examples.friendPaid
                     100%float 0%float [("Amy", 40%float)] _))) _ _ 40%float eq_refl)).
    + discriminate.
    + simpl. auto.
    + discriminate.
  - refine (proj2 friend_paid_rule "1" "Dinner" "2024-05-01" "Amy" _ _);
      discriminate.
Defined.

End Rules.

(** ** The emitted list *)

Section Emitted.

Import Expense.

Lemma lexicographic_ordering : Spec.Ordering lexicographic.
Proof.
  unfold lexicographic. split.
  - intros x y E. rewrite String.compare_antisym, E. discriminate.
  - unfold Spec.notAfter. intros x y z Hxy Hyz.
    destruct (String.compare x y) eqn:Exy; [| |congruence].
    + apply String.compare_eq_iff in Exy. now subst.
    + destruct (String.compare y z) eqn:Eyz; [| |congruence].
      * apply String.compare_eq_iff in Eyz. subst. congruence.
      * assert (E : String.compare x z = Lt)
          by (exact (StrictOrder_Transitive (R := String_as_OT.lt) x y z Exy Eyz)).
        congruence.
Qed.

Lemma alphabetical_ordering : Spec.Ordering alphabetical.
Proof.
  destruct lexicographic_ordering as [_ Htrans].
  unfold lexicographic, Spec.notAfter in Htrans.
  assert (Hlt : forall a b c,
             String.compare a b = Lt -> String.compare b c = Lt ->
             String.compare a c = Lt)
    by (intros a b c; exact (StrictOrder_Transitive (R := String_as_OT.lt) a b c)).
  unfold alphabetical. split.
  - intros x y E. rewrite (String.compare_antisym (lowercase y) (lowercase x)).
    destruct (String.compare (lowercase x) (lowercase y)); simpl.
    + rewrite String.compare_antisym, E. discriminate.
    + discriminate E.
    + discriminate.
  - unfold Spec.notAfter. intros x y z Hxy Hyz.
    destruct (String.compare (lowercase x) (lowercase y)) eqn:Exy; [| |congruence].
    + apply String.compare_eq_iff in Exy. rewrite Exy.
      destruct (String.compare (lowercase y) (lowercase z)) eqn:Eyz;
        [|discriminate|congruence].
      now apply (Htrans z y x).
    + destruct (String.compare (lowercase y) (lowercase z)) eqn:Eyz; [| |congruence].
      * apply String.compare_eq_iff in Eyz. rewrite <- Eyz, Exy. discriminate.
      * rewrite (Hlt _ _ _ Exy Eyz). discriminate.
Qed.

(** With any comparison that orders, the emitted list is sorted by it. *)
Lemma friendBalances_sorted (cmp : string -> string -> comparison)
    (expenses : list Expense.t) :
  Spec.Ordering cmp ->
  StronglySorted (Spec.notAfter (Dashboard.byName cmp))
    (Dashboard.friendBalances cmp expenses).
Proof.
  intros [Htotal Htrans]. unfold Dashboard.friendBalances.
  apply Array_sort_sorted. split.
  - intros x y. apply Htotal.
  - intros x y z. apply Htrans.
Qed.

Lemma filter_keys_NoDup (f : string * float -> bool) (l : list (string * float)) :
  NoDup (map fst l) -> NoDup (map fst (filter f l)).
Proof.
  induction l as [|e l IH]; simpl; intros Hnd; [constructor|].
  inversion Hnd as [|? ? Hnotin Hnd']; subst.
  destruct (f e); simpl; [|now apply IH].
  constructor; [|now apply IH].
  intros Hin. apply Hnotin. apply in_map_iff in Hin.
  destruct Hin as [e' [E Hin]]. apply filter_In in Hin.
  apply in_map_iff. exists e'. tauto.
Qed.

(** No counterparty is listed twice. *)
Lemma friendBalances_names_NoDup (cmp : string -> string -> comparison)
    (expenses : list Expense.t) :
  NoDup (Spec.names (Dashboard.friendBalances cmp expenses)).
Proof.
  unfold Spec.names.
  eapply Permutation_NoDup.
  - symmetry. apply Permutation_map. apply friendBalances_perm.
  - rewrite map_map. simpl.
    apply (filter_keys_NoDup (fun e => Spec.shown (snd e))).
    eapply Permutation_NoDup; [symmetry; apply keys_perm|].
    apply friendDebts_wellFormed.
Qed.

(** The names of a list sorted by name are sorted. *)
Lemma names_sorted (cmp : string -> string -> comparison)
    (balances : list FriendBalance.t) :
  StronglySorted (Spec.notAfter (Dashboard.byName cmp)) balances ->
  StronglySorted (Spec.notAfter cmp) (Spec.names balances).
Proof.
  unfold Spec.names.
  induction 1 as [|b balances Hs IH Hb]; simpl; constructor; [exact IH|].
  apply Forall_forall. intros n Hn. apply in_map_iff in Hn.
  destruct Hn as [b' [<- Hin]].
  rewrite Forall_forall in Hb. exact (Hb b' Hin).
Qed.

(** A sorted list is the only sorted arrangement of its elements, when no
    two of them compare both ways. *)
Lemma sorted_unique (A : Type) (R : A -> A -> Prop) (l l' : list A) :
  StronglySorted R l ->
  StronglySorted (fun x y => ~ R y x) l' ->
  Permutation l l' ->
  l = l'.
Proof.
  intros Hl. revert l'.
  induction Hl as [|x l Hl IH Hx]; intros l' Hl' Hperm.
  - apply Permutation_nil in Hperm. now subst.
  - destruct Hl' as [|y l' Hl' Hy].
    + symmetry in Hperm. apply Permutation_nil in Hperm. discriminate.
    + assert (E : x = y).
      { assert (Hxin : In x (y :: l'))
          by (eapply Permutation_in; [exact Hperm | now left]).
        assert (Hyin : In y (x :: l))
          by (eapply Permutation_in; [symmetry; exact Hperm | now left]).
        destruct Hxin as [E | Hxin]; [now symmetry|].
        destruct Hyin as [E | Hyin]; [exact E|].
        rewrite Forall_forall in Hx, Hy.
        exfalso. exact (Hy x Hxin (Hx y Hyin)). }
      subst y. f_equal. apply IH; [exact Hl'|].
      eapply Permutation_cons_inv; exact Hperm.
Qed.

(** C5: for every expense list (and every comparison used to sort), an
    entry of name [name] and amount [amount] is in the emitted list exactly
    when [amount] is the accumulated balance of [name] and its absolute
    value is strictly above 0.01; no name is listed twice; a counterparty
    whose accumulated balance is exactly [0] is not listed, as with a credit
    of 25 followed by a debit of 25. *)
Theorem epsilon_suppression
    (cmp : string -> string -> comparison) (expenses : list Expense.t) :
  (forall (name : string) (amount : float),
      In (FriendBalance.mk name amount) (Dashboard.friendBalances cmp expenses)
      <-> JS.get (Dashboard.friendDebts expenses) name = Some amount
          /\ JS.gt (JS.Math_abs amount) 0.01 = true)
  /\ NoDup (Spec.names (Dashboard.friendBalances cmp expenses))
  /\ (forall name : string,
         JS.get (Dashboard.friendDebts expenses) name = Some 0%float ->
         ~ In name (Spec.names (Dashboard.friendBalances cmp expenses)))
  /\ JS.get (Dashboard.friendDebts Examples.settled) "Bo" = Some 0%float
  /\ Dashboard.friendBalances cmp Examples.settled = [].
Proof.
  split; [|split; [|split; [|split]]].
  - intros name amount. apply friendBalances_In.
  - apply friendBalances_names_NoDup.
  - intros name Hzero Hin. unfold Spec.names in Hin. apply in_map_iff in Hin.
    destruct Hin as [[n a] [E Hin]]. simpl in E. subst n.
    apply friendBalances_In in Hin. destruct Hin as [Hget Hshown].
    rewrite Hzero in Hget. injection Hget as <-.
    vm_compute in Hshown. discriminate.
  - reflexivity.
  - reflexivity.
Qed.

(** C5 at the scenario of the spec: Alex, whose balance is 17.5, is listed
    with it. *)
Lemma epsilon_suppression_witness :
  In (FriendBalance.mk "Alex" 17.5%float)
     (Dashboard.friendBalances lexicographic Examples.scenario)
  /\ ~ In "Bo" (Spec.names (Dashboard.friendBalances lexicographic Examples.settled)).
Proof.
  split.
  - apply (proj1 (epsilon_suppression lexicographic Examples.scenario)).
    split; reflexivity.
  - apply (proj1 (proj2 (proj2 (epsilon_suppression lexicographic Examples.settled)))).
    reflexivity.
Defined.

(** C6, as stated, fails: the list is sorted by the host's
    [localeCompare], which need not be the lexicographic comparison.  With
    an alphabetical comparison that ignores case first, the counterparties
    Zed, amy and Mo are listed in the order amy, Mo, Zed, which is not
    ascending in the lexicographic order, where Mo and Zed come before
    amy. *)
Lemma friendBalances_not_lexicographic :
  Spec.names (Dashboard.friendBalances alphabetical [MoreExamples.mixedCase])
  = ["amy"; "Mo"; "Zed"]
  /\ ~ Spec.ascending
         (Spec.names (Dashboard.friendBalances alphabetical [MoreExamples.mixedCase])).
Proof.
  split; [reflexivity|].
  intros H. vm_compute in H. inversion H as [|? ? _ Hall]; subst.
  inversion Hall as [|? ? HMo _]; subst. discriminate HMo.
Qed.

(** C6, amended: for every expense list and every comparison that orders,
    the emitted list is sorted by counterparty name under that comparison
    (no entry comes after a later one), on the dashboard and on the
    settle-up screen; in particular, when the counterparties listed are Zed,
    Amy and Mo and the comparison puts Amy before Mo and Mo before Zed, they
    are listed in the order Amy, Mo, Zed. *)
Theorem friendBalances_sorted_by_comparison
    (cmp : string -> string -> comparison) (expenses : list Expense.t) :
  Spec.Ordering cmp ->
  StronglySorted (Spec.notAfter (Dashboard.byName cmp))
    (Dashboard.friendBalances cmp expenses)
  /\ StronglySorted (Spec.notAfter (Dashboard.byName cmp))
       (SettleUp.friendBalances cmp expenses)
  /\ (cmp "Mo" "Amy" = Gt -> cmp "Zed" "Amy" = Gt -> cmp "Zed" "Mo" = Gt ->
      Permutation
        (Spec.names (Dashboard.friendBalances cmp expenses))
        ["Zed"; "Amy"; "Mo"] ->
      Spec.names (Dashboard.friendBalances cmp expenses) = ["Amy"; "Mo"; "Zed"]).
Proof.
  intros Hcmp.
  assert (Hs : StronglySorted (Spec.notAfter (Dashboard.byName cmp))
                 (Dashboard.friendBalances cmp expenses))
    by now apply friendBalances_sorted.
  split; [exact Hs|]. split; [exact Hs|].
  intros HMoAmy HZedAmy HZedMo Hperm.
  apply (sorted_unique (R := Spec.notAfter cmp)).
  - now apply names_sorted.
  - unfold Spec.notAfter.
    repeat constructor; intros H; now apply H.
  - rewrite Hperm. apply (Permutation_cons_append ["Amy"; "Mo"] "Zed").
Qed.

(** C6 at the expense of 90 paid by 'You' for Zed, Amy and Mo, with the
    alphabetical comparison. *)
Lemma friendBalances_sorted_by_comparison_witness :
  Spec.names (Dashboard.friendBalances alphabetical [Examples.threeWays])
  = ["Amy"; "Mo"; "Zed"].
Proof.
  refine (proj2 (proj2 (friendBalances_sorted_by_comparison
                          [Examples.threeWays] alphabetical_ordering)) _ _ _ _);
    try reflexivity.
  vm_compute. apply Permutation_sym, Permutation_cons_append.
Defined.

(** C8: for every expense list (and every comparison used to sort), no
    entry of the emitted list is named 'You', on the dashboard and on the
    settle-up screen. *)
Theorem friendBalances_never_lists_You
    (cmp : string -> string -> comparison) (expenses : list Expense.t) :
  Forall (fun balance => FriendBalance.name balance <> You)
    (Dashboard.friendBalances cmp expenses)
  /\ Forall (fun balance => FriendBalance.name balance <> You)
       (SettleUp.friendBalances cmp expenses).
Proof.
  assert (H : Forall (fun balance => FriendBalance.name balance <> You)
                (Dashboard.friendBalances cmp expenses)).
  { apply Forall_forall. intros [name amount] Hin. simpl.
    apply friendBalances_In in Hin. destruct Hin as [Hget _].
    apply get_Some_key in Hget.
    destruct (friendDebts_wellFormed expenses) as [_ Hyou].
    intros ->. exact (Hyou Hget). }
  split; exact H.
Qed.

(** C9: for every expense list and every comparison used to sort, the
    settle-up screen's [friendBalances] returns the list the dashboard's
    returns: the same entries in the same order. *)
Theorem settleUp_agrees_with_dashboard
    (cmp : string -> string -> comparison) (expenses : list Expense.t) :
  SettleUp.friendBalances cmp expenses = Dashboard.friendBalances cmp expenses.
Proof.
  unfold SettleUp.friendBalances, Dashboard.friendBalances, Dashboard.emit,
    Dashboard.friendDebts, Dashboard.initialDebts, Dashboard.getUniqueFriends,
    Dashboard.byName.
  reflexivity.
Qed.

End Emitted.

(** ** Totality *)

Section Totality.

Import Expense.

Lemma checked_balanceStep (friendDebts : JS.object) (expense : Expense.t) :
  Checked.balanceStep friendDebts expense =
  Some (Dashboard.balanceStep friendDebts expense).
Proof.
  unfold Checked.balanceStep, Dashboard.balanceStep, Checked.divide.
  destruct (Nat.eqb (List.length (splitWith expense)) 0) eqn:E; [reflexivity|].
  simpl.
  destruct (String.eqb (paidBy expense) You); [reflexivity|].
  now destruct (JS.includes (splitWith expense) You).
Qed.

Lemma checked_summaryStep (st : float * float * JS.object) (expense : Expense.t) :
  Checked.summaryStep st expense = Some (Dashboard.summaryStep st expense).
Proof.
  destruct st as [[totalSpent youPaid] friendDebts].
  unfold Checked.summaryStep, Dashboard.summaryStep, Checked.divide.
  destruct (Nat.eqb (List.length (splitWith expense)) 0) eqn:E; [reflexivity|].
  simpl.
  destruct (String.eqb (paidBy expense) You); [reflexivity|].
  now destruct (JS.includes (splitWith expense) You).
Qed.

(** A loop whose body never fails does not fail. *)
Lemma checked_forEach {A S : Type} (body : S -> A -> option S) (pure : S -> A -> S) :
  (forall s x, body s x = Some (pure s x)) ->
  forall (xs : list A) (s : S),
    Checked.forEach xs body s = Some (JS.forEach xs pure s).
Proof.
  intros Hbody. unfold Checked.forEach, JS.forEach.
  induction xs as [|x xs IH]; intros s; [reflexivity|].
  simpl. rewrite Hbody. apply IH.
Qed.

(** C7: on every expense list the two expenses loops, run with division by a
    participant count of zero counted as an error, end without error, with
    the state the calculator computes; and an expense whose [splitWith] is
    empty is skipped: it leaves [friendDebts] and [youPaid] as they were,
    without dividing, and adds its amount to [totalSpent]. *)
Theorem calculator_total_and_skips_unsplit :
  (forall expenses : list Expense.t,
      Checked.friendDebts expenses = Some (Dashboard.friendDebts expenses)
      /\ Checked.summaryLoop expenses = Some (Dashboard.summaryLoop expenses))
  /\ (forall (id title date paidBy : string) (amount totalSpent youPaid : float)
             (friendDebts : JS.object),
         let expense := Expense.mk id title amount date paidBy [] in
         Dashboard.balanceStep friendDebts expense = friendDebts
         /\ SettleUp.balanceStep friendDebts expense = friendDebts
         /\ Checked.balanceStep friendDebts expense = Some friendDebts
         /\ Dashboard.summaryStep (totalSpent, youPaid, friendDebts) expense
            = ((totalSpent + amount)%float, youPaid, friendDebts)).
Proof.
  split.
  - intros expenses. split.
    + apply checked_forEach, checked_balanceStep.
    + apply checked_forEach, checked_summaryStep.
  - intros. repeat split.
Qed.

End Totality.

(** ** Payment links *)

Section PaymentLinks.

Import PaymentUtils.

Local Open Scope string_scope.

Variable Number_toString : float -> string.
Variable encodeURIComponent : string -> string.

Lemma keep_chars (class : ascii -> bool) (s : string) (c : ascii) :
  In c (Spec.chars (JS.keep class s)) <-> In c (Spec.chars s) /\ class c = true.
Proof.
  unfold Spec.chars.
  induction s as [|a s IH]; simpl; [tauto|].
  destruct (class a) eqn:E; simpl; rewrite IH; intuition congruence.
Qed.

Lemma keep_idempotent (class : ascii -> bool) (s : string) :
  JS.keep class (JS.keep class s) = JS.keep class s.
Proof.
  induction s as [|a s IH]; simpl; [reflexivity|].
  destruct (class a) eqn:E; simpl; [rewrite E; now f_equal | exact IH].
Qed.

Lemma replace_first_chars (c0 : ascii) (s : string) (c : ascii) :
  In c (Spec.chars (JS.replace_first c0 s)) -> In c (Spec.chars s).
Proof.
  unfold Spec.chars.
  induction s as [|a s IH]; simpl; [tauto|].
  destruct (Ascii.eqb a c0); simpl; intuition.
Qed.

(** Every character of a handle is a character of the username, and one of
    the class. *)
Lemma handle_chars (ty : PaymentType) (username : string) (c : ascii) :
  In c (Spec.chars (Link.handle ty username)) ->
  In c (Spec.chars username) /\ allowed c = true.
Proof.
  intros Hin. apply keep_chars. fold (cleanUsername username).
  destruct ty; simpl in Hin; [exact Hin|].
  now apply replace_first_chars in Hin.
Qed.

Lemma urls_shaped (info : PaymentInfo) :
  urls Number_toString info (type info) =
  Link.before Link.WebTable (type info)
  ++ Link.handle (type info) (username info)
  ++ Link.after Number_toString encodeURIComponent Link.WebTable (type info)
       (amount info) (note info).
Proof. unfold urls. now destruct (type info). Qed.

Lemma webUrls_shaped (info : PaymentInfo) :
  webUrls Number_toString info (type info) =
  Link.before Link.WebTable (type info)
  ++ Link.handle (type info) (username info)
  ++ Link.after Number_toString encodeURIComponent Link.WebTable (type info)
       (amount info) (note info).
Proof. unfold webUrls. now destruct (type info). Qed.

Lemma schemes_shaped (info : PaymentInfo) :
  schemes Number_toString encodeURIComponent info (type info) =
  Link.before Link.SchemeTable (type info)
  ++ Link.handle (type info) (username info)
  ++ Link.after Number_toString encodeURIComponent Link.SchemeTable (type info)
       (amount info) (note info).
Proof. unfold schemes. now destruct (type info). Qed.

(** C10, amended: whatever the platform and the answer of
    [Linking.canOpenURL], every URL [handlePaymentRedirect] passes on (web,
    deep link or fallback) is the fixed text of its table, then the handle,
    then the amount and the note; every character of the handle is a
    character of the username among ASCII letters, digits, '@' and '$'; for
    Venmo the handle is the cleaned username without its first '@' only;
    and the calls are those made for the cleaned username. *)
Theorem payment_links_use_cleaned_username
    (web : bool) (canOpen : option bool) (info : PaymentInfo) :
  Forall
    (fun call =>
       Link.shaped Number_toString encodeURIComponent info (url_of call))
    (handlePaymentRedirect Number_toString encodeURIComponent web canOpen info)
  /\ Forall
       (fun c => In c (Spec.chars (username info)) /\ allowed c = true)
       (Spec.chars (Link.handle (type info) (username info)))
  /\ Link.handle cashapp (username info) = cleanUsername (username info)
  /\ Link.handle venmo (username info)
     = JS.replace_first "@" (cleanUsername (username info))
  /\ handlePaymentRedirect Number_toString encodeURIComponent web canOpen info
     = handlePaymentRedirect Number_toString encodeURIComponent web canOpen
         (Link.withUsername info (cleanUsername (username info))).
Proof.
  split; [|split; [|split; [|split]]].
  - unfold handlePaymentRedirect.
    destruct web.
    + repeat constructor. exists Link.WebTable. apply urls_shaped.
    + constructor; [exists Link.SchemeTable; apply schemes_shaped|].
      destruct canOpen as [[|]|]; repeat constructor.
      * exists Link.SchemeTable. apply schemes_shaped.
      * exists Link.WebTable. apply webUrls_shaped.
  - apply Forall_forall. intros c. apply handle_chars.
  - reflexivity.
  - reflexivity.
  - unfold handlePaymentRedirect, urls, webUrls, schemes, Link.withUsername.
    simpl. unfold cleanUsername. now rewrite keep_idempotent.
Qed.

End PaymentLinks.

(** C10, as stated, fails for Venmo: of the two '@' of the username @@bob,
    the second one reaches the URL. *)
Lemma venmo_link_keeps_second_at_sign :
  PaymentUtils.handlePaymentRedirect Link.noDigits Link.asIs true None
    Examples.venmoHandle
  = [PaymentUtils.window_open "https://venmo.com/@bob"]
  /\ In "@"%char
       (Spec.chars (Link.handle PaymentUtils.venmo
                      (PaymentUtils.username Examples.venmoHandle))).
Proof. split; [reflexivity | simpl; auto]. Qed.

(** A Cash App handle with a space, slashes, dots and a query: only the
    letters, the digit and the '$' reach the URL. *)
Example cashapp_link_is_cleaned :
  PaymentUtils.handlePaymentRedirect Link.noDigits Link.asIs false (Some false)
    Examples.cashHandle
  = [PaymentUtils.Linking_canOpenURL "cashapp://cash.app/$alicexy1";
     PaymentUtils.Linking_openURL "https://cash.app/$alicexy1"].
Proof. reflexivity. Qed.

(** * Further properties *)

(** ** Who the counterparties are *)

Section Friends.

Import Expense.

Lemma Set_add_In_iff (s : list string) (x y : string) :
  In y (JS.Set_add s x) <-> y = x \/ In y s.
Proof.
  unfold JS.Set_add. destruct (existsb (String.eqb x) s) eqn:E.
  - split; [now right|]. intros [->|H]; [|exact H].
    apply existsb_exists in E. destruct E as [z [Hz Ez]].
    apply String.eqb_eq in Ez. now subst.
  - rewrite in_app_iff. simpl. intuition congruence.
Qed.

Lemma Set_add_NoDup (s : list string) (x : string) :
  NoDup s -> NoDup (JS.Set_add s x).
Proof.
  intros Hnd. unfold JS.Set_add. destruct (existsb (String.eqb x) s) eqn:E;
    [exact Hnd|].
  apply NoDup_app; [exact Hnd | repeat constructor; intros [] |].
  intros y Hy Hin. destruct Hin as [Exy|[]]. subst y.
  assert (H : existsb (String.eqb x) s = true)
    by (apply existsb_exists; exists x; split; [exact Hy | apply String.eqb_refl]).
  congruence.
Qed.

Lemma existsb_eqb_In (x : string) (s : list string) :
  existsb (String.eqb x) s = true <-> In x s.
Proof.
  rewrite existsb_exists. split.
  - intros [y [Hy E]]. apply String.eqb_eq in E. now subst.
  - intros H. exists x. split; [exact H | apply String.eqb_refl].
Qed.

Lemma involves_iff (friend : string) (expense : Expense.t) :
  Ledger.involves friend expense = true <->
  friend = paidBy expense \/ In friend (splitWith expense).
Proof.
  unfold Ledger.involves. rewrite orb_true_iff, String.eqb_eq, existsb_eqb_In.
  intuition.
Qed.

(** The loop of [getUniqueFriends] over the participants of one expense. *)
Lemma addParticipants_In (people participants : list string) (friend : string) :
  In friend
     (JS.forEach people
        (fun participants person =>
           if negb (String.eqb person You)
           then JS.Set_add participants person
           else participants)
        participants)
  <-> In friend participants \/ (friend <> You /\ In friend people).
Proof.
  revert participants.
  induction people as [|p people IH]; intros participants.
  - simpl. intuition.
  - rewrite forEach_cons, IH. simpl.
    destruct (String.eqb_spec p You) as [->|Hp]; simpl.
    + intuition congruence.
    + rewrite Set_add_In_iff. intuition congruence.
Qed.

Lemma addParticipants_NoDup (people participants : list string) :
  NoDup participants ->
  NoDup
    (JS.forEach people
       (fun participants person =>
          if negb (String.eqb person You)
          then JS.Set_add participants person
          else participants)
       participants).
Proof.
  apply forEach_invariant. intros s x _ Hs.
  destruct (negb (String.eqb x You)); [now apply Set_add_NoDup | exact Hs].
Qed.

Lemma collectFriends_In (expenses : list Expense.t) :
  forall (participants : list string) (friend : string),
    In friend
       (JS.forEach expenses
          (fun participants expense =>
             let participants :=
               if negb (String.eqb (paidBy expense) You)
               then JS.Set_add participants (paidBy expense)
               else participants in
             JS.forEach (splitWith expense)
               (fun participants person =>
                  if negb (String.eqb person You)
                  then JS.Set_add participants person
                  else participants)
               participants)
          participants)
    <-> In friend participants
        \/ (friend <> You
            /\ exists expense, In expense expenses
                               /\ Ledger.involves friend expense = true).
Proof.
  induction expenses as [|e expenses IH]; intros participants friend.
  - simpl. split; [now left|]. intros [H|[_ [x [[] _]]]]. exact H.
  - rewrite forEach_cons, IH. cbv zeta. rewrite addParticipants_In.
    assert (Hpayer :
      In friend (if negb (String.eqb (paidBy e) You)
                 then JS.Set_add participants (paidBy e) else participants)
      <-> In friend participants \/ (friend <> You /\ friend = paidBy e)).
    { destruct (String.eqb_spec (paidBy e) You) as [E|Hne]; simpl.
      - intuition congruence.
      - rewrite Set_add_In_iff. intuition congruence. }
    rewrite Hpayer. split.
    + intros [[[H|[Hy Hp]]|[Hy Hin]]|[Hy [x [Hx Hi]]]].
      * now left.
      * right. split; [exact Hy|]. exists e. split; [now left|].
        apply involves_iff. now left.
      * right. split; [exact Hy|]. exists e. split; [now left|].
        apply involves_iff. now right.
      * right. split; [exact Hy|]. exists x. split; [now right | exact Hi].
    + intros [H|[Hy [x [[<-|Hx] Hi]]]].
      * now left; left; left.
      * apply involves_iff in Hi. destruct Hi as [Hp|Hin].
        -- left; left; right. now split.
        -- left; right. now split.
      * right. split; [exact Hy|]. now exists x.
Qed.

Lemma getUniqueFriends_NoDup (expenses : list Expense.t) :
  NoDup (Dashboard.getUniqueFriends expenses).
Proof.
  unfold Dashboard.getUniqueFriends.
  apply forEach_invariant; [|constructor].
  intros s e _ Hs. apply addParticipants_NoDup.
  destruct (negb (String.eqb (paidBy e) You)); [now apply Set_add_NoDup | exact Hs].
Qed.

Lemma getUniqueFriends_In (expenses : list Expense.t) (friend : string) :
  In friend (Dashboard.getUniqueFriends expenses)
  <-> friend <> You
      /\ exists expense, In expense expenses
                         /\ Ledger.involves friend expense = true.
Proof.
  unfold Dashboard.getUniqueFriends. rewrite collectFriends_In.
  split; [intros [[]|H]; exact H | intros H; now right].
Qed.

(** X1: [getUniqueFriends] lists each name once, and lists exactly the
    payers and participants of the expenses other than 'You'. *)
Theorem getUniqueFriends_lists_each_friend_once (expenses : list Expense.t) :
  NoDup (Dashboard.getUniqueFriends expenses)
  /\ forall friend : string,
       In friend (Dashboard.getUniqueFriends expenses)
       <-> friend <> You
           /\ exists expense, In expense expenses
                              /\ (friend = paidBy expense
                                  \/ In friend (splitWith expense)).
Proof.
  split; [apply getUniqueFriends_NoDup|].
  intros friend. rewrite getUniqueFriends_In.
  split; intros [Hy [e [He Hi]]]; (split; [exact Hy|]); exists e;
    (split; [exact He | now apply involves_iff]).
Qed.

End Friends.

(** ** The balances, friend by friend *)

Section FriendByFriend.

Import Expense.

Implicit Types (friendDebts : JS.object) (expense : Expense.t) (friend : string).

Lemma storable_iff (name : string) :
  Ledger.storable name = true <-> name <> JS.proto.
Proof.
  unfold Ledger.storable. rewrite negb_true_iff.
  destruct (String.eqb_spec name JS.proto); intuition congruence.
Qed.

Lemma initialise_names (friends : list string) :
  forall o : JS.object,
    NoDup (JS.own_names o ++ friends) ->
    JS.own_names
      (JS.forEach friends (fun friendDebts friend => JS.set friendDebts friend 0%float) o)
    = JS.own_names o ++ filter Ledger.storable friends.
Proof.
  induction friends as [|f friends IH]; intros o Hnd.
  - simpl. now rewrite app_nil_r.
  - rewrite forEach_cons. simpl.
    assert (Hf : ~ In f (JS.own_names o)).
    { intros Hin. apply NoDup_remove_2 in Hnd. apply Hnd.
      apply in_or_app. now left. }
    destruct (Ledger.storable f) eqn:E.
    + apply storable_iff in E.
      rewrite IH; rewrite set_new_key by assumption.
      * now rewrite <- app_assoc.
      * now rewrite <- app_assoc.
    + apply negb_false_iff, String.eqb_eq in E. subst f. rewrite set_proto.
      apply IH. now apply NoDup_remove_1 in Hnd.
Qed.

Lemma initialDebts_names (friends : list string) :
  NoDup friends ->
  JS.own_names (Dashboard.initialDebts friends) = filter Ledger.storable friends.
Proof.
  intros Hnd. unfold Dashboard.initialDebts. now rewrite initialise_names.
Qed.

Lemma initialDebts_get_In (friends : list string) friend :
  NoDup friends ->
  JS.get (Dashboard.initialDebts friends) friend
  = if in_dec string_dec friend (filter Ledger.storable friends)
    then Some 0%float else None.
Proof.
  intros Hnd.
  destruct (in_dec string_dec friend (filter Ledger.storable friends)) as [Hin|Hnot].
  - destruct (initialDebts_get friends friend) as [E|E]; [exact E|].
    apply get_None_iff in E. rewrite initialDebts_names in E by exact Hnd.
    contradiction.
  - apply get_None_iff. now rewrite initialDebts_names.
Qed.

Lemma credit_names (share : float) friendDebts (person : string) :
  person = You \/ person = JS.proto \/ In person (JS.own_names friendDebts) ->
  JS.own_names (Spec.credit share friendDebts person) = JS.own_names friendDebts.
Proof.
  unfold Spec.credit. intros [->|Hin].
  - now rewrite String.eqb_refl.
  - destruct (negb (String.eqb person You)); [|reflexivity].
    now apply set_old_key.
Qed.

(** The expenses loop creates no property when every friend of the expense
    has one, or is named [__proto__]. *)
Lemma balanceStep_names friendDebts expense :
  (forall friend, friend <> You -> Ledger.involves friend expense = true ->
                  friend = JS.proto \/ In friend (JS.own_names friendDebts)) ->
  JS.own_names (Dashboard.balanceStep friendDebts expense)
  = JS.own_names friendDebts.
Proof.
  intros Hall. rewrite balanceStep_eq.
  destruct (Nat.eqb (List.length (splitWith expense)) 0); [reflexivity|].
  destruct (String.eqb_spec (paidBy expense) You) as [E|Hne].
  - assert (Hpeople : forall p, In p (splitWith expense) ->
                                p = You \/ p = JS.proto
                                \/ In p (JS.own_names friendDebts)).
    { intros p Hp. destruct (string_dec p You) as [->|Hy]; [now left|].
      right. apply Hall; [exact Hy|]. apply involves_iff. now right. }
    revert Hpeople. generalize (splitWith expense) as people.
    intros people. revert friendDebts Hall.
    induction people as [|p people IH]; intros friendDebts Hall Hpeople;
      [reflexivity|].
    rewrite forEach_cons.
    assert (Hk : JS.own_names (Spec.credit (Spec.share expense) friendDebts p)
                 = JS.own_names friendDebts)
      by (apply credit_names, Hpeople; now left).
    rewrite IH; [exact Hk | |].
    + intros friend Hy Hi. rewrite Hk. now apply Hall.
    + intros q Hq. rewrite Hk. apply Hpeople. now right.
  - destruct (JS.includes (splitWith expense) You); [|reflexivity].
    unfold Spec.debit. apply set_old_key. apply Hall; [congruence|].
    apply involves_iff. now left.
Qed.

(** The properties of [friendDebts], in the order of their creation. *)
Lemma friendDebts_names (expenses : list Expense.t) :
  JS.own_names (Dashboard.friendDebts expenses)
  = filter Ledger.storable (Dashboard.getUniqueFriends expenses).
Proof.
  unfold Dashboard.friendDebts.
  apply (forEach_invariant
           (fun o => JS.own_names o
                     = filter Ledger.storable (Dashboard.getUniqueFriends expenses))).
  - intros o e He Ho. rewrite balanceStep_names; [exact Ho|].
    intros friend Hy Hi. rewrite Ho.
    destruct (string_dec friend JS.proto) as [E|Hproto]; [now left|].
    right. apply filter_In. split; [|now apply storable_iff].
    apply getUniqueFriends_In. split; [exact Hy|]. now exists e.
  - apply initialDebts_names, getUniqueFriends_NoDup.
Qed.

(** X2: the properties of [friendDebts], in the dashboard's two loops, are
    the names [getUniqueFriends] returns other than [__proto__], under
    which nothing is stored; [Object.keys] lists them with the array-index
    names first, in ascending order, and the others in the order of
    [getUniqueFriends]; the expenses loop creates no property, and a name
    has an accumulated balance exactly when it is a payer or participant
    other than 'You' and [__proto__]. *)
Theorem friendDebts_has_the_friends_as_properties (expenses : list Expense.t) :
  JS.Object_keys (Dashboard.friendDebts expenses)
  = JS.listed (fun name => name)
      (filter Ledger.storable (Dashboard.getUniqueFriends expenses))
  /\ JS.Object_keys (snd (Dashboard.summaryLoop expenses))
     = JS.listed (fun name => name)
         (filter Ledger.storable (Dashboard.getUniqueFriends expenses))
  /\ Permutation
       (JS.Object_keys (Dashboard.friendDebts expenses))
       (filter Ledger.storable (Dashboard.getUniqueFriends expenses))
  /\ forall friend : string,
       (exists balance, JS.get (Dashboard.friendDebts expenses) friend = Some balance)
       <-> In friend (Dashboard.getUniqueFriends expenses) /\ friend <> JS.proto.
Proof.
  assert (Hkeys : JS.Object_keys (Dashboard.friendDebts expenses)
                  = JS.listed (fun name => name)
                      (filter Ledger.storable (Dashboard.getUniqueFriends expenses)))
    by (rewrite keys_listed; now rewrite friendDebts_names).
  split; [exact Hkeys|]. split; [|split].
  - rewrite summaryLoop_eq. exact Hkeys.
  - rewrite <- friendDebts_names. apply keys_perm.
  - intros friend. rewrite <- storable_iff, <- filter_In, <- friendDebts_names.
    split.
    + intros [balance E]. now apply get_Some_key in E.
    + intros Hin. destruct (JS.get (Dashboard.friendDebts expenses) friend) eqn:E.
      * now exists f.
      * apply get_None_iff in E. contradiction.
Qed.

Lemma balanceStep_onFriend friendDebts expense friend :
  friend <> JS.proto ->
  JS.get (Dashboard.balanceStep friendDebts expense) friend
  = Ledger.onFriend friend (JS.get friendDebts friend) expense.
Proof.
  intros Hproto. rewrite balanceStep_eq. unfold Ledger.onFriend.
  destruct (Nat.eqb (List.length (splitWith expense)) 0); [reflexivity|].
  destruct (String.eqb (paidBy expense) You).
  - destruct (String.eqb_spec friend You) as [->|Hy].
    + apply creditAll_get_other. now right.
    + now apply creditAll_get.
  - destruct (JS.includes (splitWith expense) You); [|reflexivity].
    unfold Spec.debit.
    destruct (String.eqb_spec (paidBy expense) friend) as [<-|Hne].
    + now apply get_set_same.
    + apply get_set_other. congruence.
Qed.

Lemma balanceLoop_onFriend (expenses : list Expense.t) friend :
  friend <> JS.proto ->
  forall friendDebts,
    JS.get (JS.forEach expenses Dashboard.balanceStep friendDebts) friend
    = fold_left (Ledger.onFriend friend) expenses (JS.get friendDebts friend).
Proof.
  intros Hproto.
  induction expenses as [|e expenses IH]; intros friendDebts; [reflexivity|].
  rewrite forEach_cons, IH, balanceStep_onFriend by exact Hproto. reflexivity.
Qed.

Lemma onFriend_uninvolved friend (balance : option float) expense :
  Ledger.involves friend expense = false ->
  Ledger.onFriend friend balance expense = balance.
Proof.
  unfold Ledger.involves, Ledger.onFriend. intros H.
  apply orb_false_iff in H. destruct H as [Hp Hs].
  destruct (Nat.eqb (List.length (splitWith expense)) 0); [reflexivity|].
  destruct (String.eqb (paidBy expense) You).
  - destruct (String.eqb friend You); [reflexivity|].
    rewrite (proj1 (count_occ_not_In string_dec (splitWith expense) friend));
      [reflexivity|].
    intros Hin. apply existsb_eqb_In in Hin. congruence.
  - rewrite Hp. now destruct (JS.includes (splitWith expense) You).
Qed.

Lemma onFriend_passedOver friend (balance : option float) expense :
  Ledger.passedOver expense = true ->
  Ledger.onFriend friend balance expense = balance.
Proof.
  unfold Ledger.passedOver, Ledger.onFriend. intros H.
  destruct (Nat.eqb (List.length (splitWith expense)) 0); [reflexivity|].
  simpl in H. apply andb_true_iff in H. destruct H as [Hp Hs].
  apply negb_true_iff in Hp, Hs. now rewrite Hp, Hs.
Qed.

Lemma fold_left_skip {A B : Type} (f : B -> A -> B) (p : A -> bool) (l : list A) :
  (forall b x, p x = false -> f b x = b) ->
  forall b, fold_left f l b = fold_left f (filter p l) b.
Proof.
  intros Hskip. induction l as [|x l IH]; intros b; [reflexivity|].
  simpl. destruct (p x) eqn:E; simpl; [apply IH|].
  rewrite Hskip by exact E. apply IH.
Qed.

(** The accumulated balance of a friend, from the expenses alone. *)
Lemma friendDebts_get (expenses : list Expense.t) friend :
  friend <> JS.proto ->
  JS.get (Dashboard.friendDebts expenses) friend
  = fold_left (Ledger.onFriend friend) expenses
      (if in_dec string_dec friend (Dashboard.getUniqueFriends expenses)
       then Some 0%float else None).
Proof.
  intros Hproto. unfold Dashboard.friendDebts.
  rewrite balanceLoop_onFriend, initialDebts_get_In;
    [|apply getUniqueFriends_NoDup|exact Hproto].
  f_equal.
  destruct (in_dec string_dec friend
              (filter Ledger.storable (Dashboard.getUniqueFriends expenses)))
    as [H|H];
    destruct (in_dec string_dec friend (Dashboard.getUniqueFriends expenses))
      as [H'|H']; try reflexivity; exfalso.
  - apply H'. now apply filter_In in H.
  - apply H. apply filter_In. split; [exact H' | now apply storable_iff].
Qed.

(** X3: the accumulated balance of a friend is decided by the expenses the
    friend is part of, as payer or participant: the other expenses can be
    left out. *)
Theorem balance_depends_on_own_expenses
    (expenses : list Expense.t) (friend : string) :
  JS.get (Dashboard.friendDebts expenses) friend
  = JS.get (Dashboard.friendDebts (filter (Ledger.involves friend) expenses)) friend.
Proof.
  destruct (string_dec friend JS.proto) as [->|Hproto];
    [now rewrite !friendDebts_no_proto|].
  rewrite !friendDebts_get by exact Hproto.
  rewrite (fold_left_skip (Ledger.onFriend friend) (Ledger.involves friend))
    by (intros b x; apply onFriend_uninvolved).
  f_equal.
  destruct (in_dec string_dec friend (Dashboard.getUniqueFriends expenses)) as [H|H];
    destruct (in_dec string_dec friend
                (Dashboard.getUniqueFriends (filter (Ledger.involves friend) expenses)))
      as [H'|H']; try reflexivity; exfalso.
  - apply H'. apply getUniqueFriends_In in H. destruct H as [Hy [e [He Hi]]].
    apply getUniqueFriends_In. split; [exact Hy|]. exists e.
    split; [|exact Hi]. apply filter_In. now split.
  - apply H. apply getUniqueFriends_In in H'. destruct H' as [Hy [e [He Hi]]].
    apply getUniqueFriends_In. split; [exact Hy|]. exists e.
    split; [|exact Hi]. now apply filter_In in He.
Qed.

End FriendByFriend.

(** ** Expenses the loops pass over *)

Section PassedOver.

Import Expense.

Lemma fold_left_unchanged {A B : Type} (f : B -> A -> B) (l : list A) :
  (forall b x, In x l -> f b x = b) -> forall b, fold_left f l b = b.
Proof.
  induction l as [|x l IH]; intros Hid b; [reflexivity|].
  simpl. rewrite Hid by now left. apply IH. intros b' x' Hx. apply Hid. now right.
Qed.

Lemma lexicographic_tellsApart : Ledger.tellsApart lexicographic.
Proof.
  unfold Ledger.tellsApart, lexicographic. intros x y Hxy Hyx.
  rewrite String.compare_antisym in Hyx.
  destruct (String.compare x y) eqn:E; simpl in Hyx; try congruence.
  now apply String.compare_eq_iff.
Qed.

(** In a list sorted by a comparison that tells names apart, with no name
    twice, every entry comes strictly before the later ones. *)
Lemma sorted_strictly (cmp : string -> string -> comparison)
    (balances : list FriendBalance.t) :
  Ledger.tellsApart cmp ->
  StronglySorted (Spec.notAfter (Dashboard.byName cmp)) balances ->
  NoDup (Spec.names balances) ->
  StronglySorted (fun x y => ~ Spec.notAfter (Dashboard.byName cmp) y x) balances.
Proof.
  unfold Spec.names. intros Hapart.
  induction 1 as [|b balances Hs IH Hb]; simpl; intros Hnd; [constructor|].
  inversion Hnd as [|? ? Hnotin Hnd']; subst.
  constructor; [now apply IH|].
  rewrite Forall_forall in *. intros b' Hin Hback.
  apply Hnotin. rewrite (Hapart _ _ (Hb b' Hin) Hback). now apply in_map.
Qed.

Lemma friendBalances_NoDup (cmp : string -> string -> comparison)
    (expenses : list Expense.t) :
  NoDup (Dashboard.friendBalances cmp expenses).
Proof.
  apply (NoDup_map_inv FriendBalance.name). apply friendBalances_names_NoDup.
Qed.

(** With or without an expense the loops pass over, a friend has the same
    accumulated balance, or a balance of [0] instead of none. *)
Lemma passedOver_balance (before after : list Expense.t) (expense : Expense.t)
    (friend : string) :
  Ledger.passedOver expense = true ->
  let withIt := JS.get (Dashboard.friendDebts (before ++ expense :: after)) friend in
  let without := JS.get (Dashboard.friendDebts (before ++ after)) friend in
  withIt = without \/ (withIt = Some 0%float /\ without = None).
Proof.
  intros Hp. cbv zeta.
  destruct (string_dec friend JS.proto) as [->|Hproto];
    [left; now rewrite !friendDebts_no_proto|].
  rewrite !friendDebts_get by exact Hproto.
  rewrite !fold_left_app. simpl. rewrite (onFriend_passedOver _ _ _ Hp).
  rewrite <- !fold_left_app.
  destruct (in_dec string_dec friend
              (Dashboard.getUniqueFriends (before ++ expense :: after))) as [H1|H1];
    destruct (in_dec string_dec friend
                (Dashboard.getUniqueFriends (before ++ after))) as [H0|H0];
    try (now left).
  - right.
    assert (Hun : forall x, In x (before ++ after) -> Ledger.involves friend x = false).
    { intros x Hx. destruct (Ledger.involves friend x) eqn:E; [|reflexivity].
      exfalso. apply H0. apply getUniqueFriends_In.
      apply getUniqueFriends_In in H1. destruct H1 as [Hy _].
      split; [exact Hy|]. now exists x. }
    rewrite !fold_left_unchanged; [now split | |];
      intros b x Hx; apply onFriend_uninvolved, Hun, Hx.
  - exfalso. apply H1. apply getUniqueFriends_In in H0.
    destruct H0 as [Hy [x [Hx Hi]]]. apply getUniqueFriends_In.
    split; [exact Hy|]. exists x. split; [|exact Hi].
    apply in_app_or in Hx. apply in_or_app.
    destruct Hx; [now left | now right; right].
Qed.

(** X4: an expense split among nobody, or paid by a friend and split
    without 'You', changes nothing of the emitted list wherever it stands
    among the expenses: the list has the same entries whatever the
    comparison, and is the same list when the comparison orders and tells
    any two names apart. *)
Theorem passed_over_expense_changes_no_listed_balance
    (cmp : string -> string -> comparison)
    (before after : list Expense.t) (expense : Expense.t) :
  Ledger.passedOver expense = true ->
  Permutation
    (Dashboard.friendBalances cmp (before ++ expense :: after))
    (Dashboard.friendBalances cmp (before ++ after))
  /\ (Spec.Ordering cmp -> Ledger.tellsApart cmp ->
      Dashboard.friendBalances cmp (before ++ expense :: after)
      = Dashboard.friendBalances cmp (before ++ after)).
Proof.
  intros Hp.
  assert (Hperm : Permutation
                    (Dashboard.friendBalances cmp (before ++ expense :: after))
                    (Dashboard.friendBalances cmp (before ++ after))).
  { apply NoDup_Permutation; try apply friendBalances_NoDup.
    intros [name amount]. rewrite !friendBalances_In.
    destruct (passedOver_balance before after expense name Hp) as [E|[E1 E0]].
    - now rewrite E.
    - rewrite E1, E0. split.
      + intros [Ev Hs]. injection Ev as <-. vm_compute in Hs. discriminate.
      + intros [Ev _]. discriminate. }
  split; [exact Hperm|].
  intros Hcmp Hapart.
  apply (sorted_unique (R := Spec.notAfter (Dashboard.byName cmp)));
    [now apply friendBalances_sorted | | exact Hperm].
  apply sorted_strictly; [exact Hapart | now apply friendBalances_sorted |].
  apply friendBalances_names_NoDup.
Qed.

(** X4 at the spec's scenario, with an expense among Zed and Bo put in the
    middle, under the lexicographic comparison. *)
Lemma passed_over_expense_changes_no_listed_balance_witness :
  Dashboard.friendBalances lexicographic
    (firstn 1 Examples.scenario ++ MoreExamples.amongFriends
       :: skipn 1 Examples.scenario)
  = Dashboard.friendBalances lexicographic
      (firstn 1 Examples.scenario ++ skipn 1 Examples.scenario).
Proof.
  apply (proj2 (passed_over_expense_changes_no_listed_balance lexicographic
                  (firstn 1 Examples.scenario) (skipn 1 Examples.scenario)
                  MoreExamples.amongFriends eq_refl)).
  - exact lexicographic_ordering.
  - exact lexicographic_tellsApart.
Defined.

End PassedOver.

(** ** The sign of a listed balance *)

Section Signs.

Lemma SFcompare_finite_refl (s : bool) (m : positive) (e : Z) :
  SFcompare (S754_finite s m e) (S754_finite s m e) = Some Eq.
Proof.
  simpl. rewrite Z.compare_refl.
  assert (E : Pos.compare_cont Eq m m = Eq) by apply Pos.compare_refl.
  rewrite E. now destruct s.
Qed.

(** A number of absolute value above 0.01 is neither [0] nor [NaN], and is
    above or below [0]. *)
Lemma shown_cases (a : float) :
  JS.gt (JS.Math_abs a) 0.01 = true ->
  JS.truthy (JS.Math_abs a) = true
  /\ JS.truthy a = true
  /\ (JS.gt a 0 = true \/ (a <? 0)%float = true).
Proof.
  unfold JS.gt, JS.truthy, JS.Math_abs, PrimFloat.is_nan.
  rewrite !FloatAxioms.ltb_spec, !FloatAxioms.eqb_spec, !FloatAxioms.abs_spec.
  set (small := Prim2SF 0.01). vm_compute in small. subst small.
  set (zero := Prim2SF 0). vm_compute in zero. subst zero.
  unfold SFltb, SFeqb.
  destruct (Prim2SF a) as [s| s | | s m e]; try discriminate.
  - intros _. simpl. destruct s; simpl; auto.
  - intros _. change (SFabs (S754_finite s m e)) with (S754_finite false m e).
    rewrite !SFcompare_finite_refl. simpl. destruct s; simpl; auto.
Qed.

(** X5: every balance of the emitted list is above [0] or below [0]: the
    rows worded "owes you" are those with [amount > 0], and every other row
    has [amount < 0], never [0] or [NaN]. *)
Theorem listed_balance_is_owed_or_owing
    (cmp : string -> string -> comparison) (expenses : list Expense.t) :
  Forall
    (fun friend =>
       (JS.gt (FriendBalance.amount friend) 0 = true
        \/ (FriendBalance.amount friend <? 0)%float = true)
       /\ Host.differs (FriendBalance.amount friend) 0 = true)
    (Dashboard.friendBalances cmp expenses).
Proof.
  apply Forall_forall. intros [name amount] Hin. simpl.
  apply friendBalances_In in Hin. destruct Hin as [_ Hs].
  destruct (@shown_cases amount Hs) as [_ [Ht Hsign]].
  split; [exact Hsign|].
  unfold Host.differs. unfold JS.truthy in Ht.
  apply negb_true_iff, orb_false_iff in Ht. destruct Ht as [Hz _].
  now rewrite Hz.
Qed.

End Signs.

(** ** Paying a listed friend *)

Section Paying.

Import PaymentUtils.

Local Open Scope string_scope.

Variable Number_toString : float -> string.
Variable encodeURIComponent : string -> string.

Lemma append_empty (s : string) : s ++ "" = s.
Proof. induction s as [|c s IH]; simpl; [reflexivity | now rewrite IH]. Qed.

Lemma ifAmount_truthy (a : float) (text : float -> string) :
  JS.truthy a = true -> ifAmount (Some a) text = text a.
Proof. intros H. unfold ifAmount. now rewrite H. Qed.

(** With an amount that counts and a note that is not empty, nothing of a
    URL is left out. *)
Lemma after_full (table : Link.Table) (ty : PaymentType) (a : float)
    (c : ascii) (note : string) :
  JS.truthy a = true ->
  Link.after Number_toString encodeURIComponent table ty (Some a)
    (Some (String c note))
  = LinkText.amountText Number_toString table ty a
    ++ LinkText.noteText encodeURIComponent table ty (String c note).
Proof.
  intros H. unfold Link.after, LinkText.amountText, LinkText.noteText.
  destruct table, ty; rewrite ifAmount_truthy by exact H; simpl;
    try reflexivity; now rewrite append_empty.
Qed.

Lemma after_no_note (table : Link.Table) (ty : PaymentType) (a : float) :
  JS.truthy a = true ->
  Link.after Number_toString encodeURIComponent table ty (Some a) None
  = LinkText.amountText Number_toString table ty a.
Proof.
  intros H. unfold Link.after, LinkText.amountText.
  destruct table, ty; rewrite ifAmount_truthy by exact H; simpl;
    try reflexivity; now rewrite append_empty.
Qed.

(** Every URL of [handlePaymentRedirect] has the shape of its table. *)
Lemma redirect_calls_shaped (web : bool) (canOpen : option bool)
    (info : PaymentInfo) :
  Forall
    (fun call =>
       Link.shaped Number_toString encodeURIComponent info (url_of call))
    (handlePaymentRedirect Number_toString encodeURIComponent web canOpen info).
Proof.
  unfold handlePaymentRedirect. destruct web.
  - repeat constructor. exists Link.WebTable. apply urls_shaped.
  - constructor; [exists Link.SchemeTable; apply schemes_shaped|].
    destruct canOpen as [[|]|]; repeat constructor.
    + exists Link.SchemeTable. apply schemes_shaped.
    + exists Link.WebTable. apply webUrls_shaped.
Qed.

(** X6: whichever friend of the settle-up list is paid, with whichever
    payment method, on whichever platform, every URL passed on is the fixed
    text of its table, the handle of the method, the amount [|amount|] and,
    in the Venmo deep link only, the note: the amount is never left out,
    and every Venmo URL says [txn=pay], also for a friend who owes. *)
Theorem settleUp_payment_url_carries_amount_and_note
    (cmp : string -> string -> comparison) (expenses : list Expense.t)
    (paymentMethod : PaymentMethods.PaymentMethod)
    (web : bool) (canOpen : option bool) :
  Forall
    (fun friend =>
       let ty := PaymentMethods.type paymentMethod in
       let note :=
         "Payment for shared expenses - "
         ++ (if JS.gt (FriendBalance.amount friend) 0
             then FriendBalance.name friend ++ " owes you"
             else "You owe " ++ FriendBalance.name friend) in
       Forall
         (fun call =>
            exists table : Link.Table,
              url_of call
              = Link.before table ty
                ++ Link.handle ty (PaymentMethods.username paymentMethod)
                ++ LinkText.amountText Number_toString table ty
                     (JS.Math_abs (FriendBalance.amount friend))
                ++ LinkText.noteText encodeURIComponent table ty note)
         (PaymentMethods.handlePayment Number_toString encodeURIComponent
            web canOpen friend paymentMethod))
    (SettleUp.friendBalances cmp expenses).
Proof.
  rewrite settleUp_friendBalances.
  apply Forall_forall. intros [name amount] Hin. cbv zeta.
  apply friendBalances_In in Hin. destruct Hin as [_ Hs].
  destruct (@shown_cases amount Hs) as [Habs _].
  unfold PaymentMethods.handlePayment.
  eapply Forall_impl; [|apply redirect_calls_shaped].
  intros call [table E]. exists table. rewrite E. simpl.
  do 2 f_equal. now apply after_full.
Qed.

(** X7: whichever friend of the dashboard list is clicked, every URL passed
    on is the fixed text of its table, the handle made of the friend's name
    (a Cash App handle when the name starts with '$', a Venmo handle
    otherwise) and the amount [|amount|]: the amount is never left out and
    there is no note. *)
Theorem dashboard_payment_url_carries_amount
    (cmp : string -> string -> comparison) (expenses : list Expense.t)
    (web : bool) (canOpen : option bool) :
  Forall
    (fun friend =>
       let ty :=
         if Host.startsWith (FriendBalance.name friend) "$"
         then cashapp else venmo in
       Forall
         (fun call =>
            exists table : Link.Table,
              url_of call
              = Link.before table ty
                ++ Link.handle ty (FriendBalance.name friend)
                ++ LinkText.amountText Number_toString table ty
                     (JS.Math_abs (FriendBalance.amount friend)))
         (DashboardPayment.handlePaymentClick Number_toString encodeURIComponent
            web canOpen friend))
    (Dashboard.friendBalances cmp expenses).
Proof.
  apply Forall_forall. intros [name amount] Hin. cbv zeta.
  apply friendBalances_In in Hin. destruct Hin as [_ Hs].
  destruct (@shown_cases amount Hs) as [Habs [Ht _]].
  unfold DashboardPayment.handlePaymentClick.
  eapply Forall_impl; [|apply redirect_calls_shaped].
  intros call [table E]. exists table. rewrite E.
  unfold DashboardPayment.paymentInfo. simpl.
  assert (Hd : Host.differs amount 0 = true).
  { unfold Host.differs. unfold JS.truthy in Ht.
    apply negb_true_iff, orb_false_iff in Ht. destruct Ht as [Hz _].
    now rewrite Hz. }
  rewrite Hd. do 2 f_equal. now apply after_no_note.
Qed.

End Paying.

(** ** Loading the payment method *)

Section Loading.

Import PaymentUtils.

Local Open Scope string_scope.


(** X9: a payment method the settle-up screen loads from a stored string
    is paid at the handle made of the characters of the class that follow
    the prefix, with the '$' kept in front for Cash App: the one '@' that is
    removed for Venmo is the prefix. *)
Theorem loaded_method_is_paid_at_its_name (paymentString : string) :
  Forall
    (fun paymentMethod =>
       PaymentMethods.username paymentMethod = paymentString
       /\ Link.handle (PaymentMethods.type paymentMethod)
            (PaymentMethods.username paymentMethod)
          = LinkText.prefix (PaymentMethods.type paymentMethod)
            ++ cleanUsername (Host.substring1 paymentString))
    (PaymentMethods.loadedBySettleUp (Some paymentString) []).
Proof.
  destruct paymentString as [|c rest]; [constructor|].
  unfold PaymentMethods.loadedBySettleUp. cbv zeta. simpl Host.startsWith.
  destruct (Ascii.eqb_spec c "$") as [->|Hcash].
  - rewrite orb_true_r. repeat constructor.
  - destruct (Ascii.eqb_spec c "@") as [->|Hvenmo]; simpl; repeat constructor.
Qed.

End Loading.

(** ** Settled balances *)

Section SettledFacts.

Lemma Set_has_In (s : list string) (x : string) :
  Host.Set_has s x = true <-> In x s.
Proof. apply existsb_eqb_In. Qed.

Lemma Set_delete_In (s : list string) (x y : string) :
  In y (Host.Set_delete s x) <-> In y s /\ y <> x.
Proof.
  unfold Host.Set_delete. rewrite filter_In.
  destruct (String.eqb_spec y x); simpl; intuition congruence.
Qed.

Lemma filter_split {A : Type} (f : A -> bool) (l : list A) :
  Permutation (filter (fun x => negb (f x)) l ++ filter f l) l.
Proof.
  induction l as [|x l IH]; simpl; [constructor|].
  destruct (f x); simpl.
  - rewrite <- Permutation_middle. now constructor.
  - now constructor.
Qed.

Lemma filter_sorted {A : Type} (R : A -> A -> Prop) (f : A -> bool) (l : list A) :
  StronglySorted R l -> StronglySorted R (filter f l).
Proof.
  induction 1 as [|x l Hl IH Hx]; simpl; [constructor|].
  destruct (f x); [|exact IH].
  constructor; [exact IH|].
  rewrite Forall_forall in *. intros y Hy. apply Hx.
  now apply filter_In in Hy.
Qed.

(** X10: whatever the comparison, the settle-up screen shows every friend
    of its list once, among the active balances or among the settled ones;
    when the comparison orders, each of the two lists is sorted by name
    under it, as the whole list is. *)
Theorem settled_and_active_split_the_list
    (cmp : string -> string -> comparison)
    (expenses : list Expense.t) (settledBalances : list string) :
  let friendBalances := SettleUp.friendBalances cmp expenses in
  let active := Settled.activeBalances friendBalances settledBalances in
  let settled := Settled.settledBalancesList friendBalances settledBalances in
  Permutation (active ++ settled) friendBalances
  /\ NoDup (Spec.names (active ++ settled))
  /\ (Spec.Ordering cmp ->
      StronglySorted (Spec.notAfter (Dashboard.byName cmp)) active
      /\ StronglySorted (Spec.notAfter (Dashboard.byName cmp)) settled).
Proof.
  cbv zeta. rewrite settleUp_friendBalances.
  unfold Settled.activeBalances, Settled.settledBalancesList.
  split; [|split].
  - apply (filter_split
             (fun balance => Host.Set_has settledBalances (FriendBalance.name balance))).
  - eapply Permutation_NoDup; [|apply (friendBalances_names_NoDup cmp expenses)].
    symmetry. apply Permutation_map.
    apply (filter_split
             (fun balance => Host.Set_has settledBalances (FriendBalance.name balance))).
  - intros Hcmp. split; apply filter_sorted; now apply friendBalances_sorted.
Qed.

(** X10 at the expense of 90 paid by 'You' for Zed, Amy and Mo, with Mo
    marked as settled, under the alphabetical comparison. *)
Lemma settled_and_active_split_the_list_witness :
  StronglySorted (Spec.notAfter (Dashboard.byName alphabetical))
    (Settled.activeBalances
       (SettleUp.friendBalances alphabetical [Examples.threeWays]) ["Mo"])
  /\ StronglySorted (Spec.notAfter (Dashboard.byName alphabetical))
       (Settled.settledBalancesList
          (SettleUp.friendBalances alphabetical [Examples.threeWays]) ["Mo"]).
Proof.
  exact (proj2 (proj2 (settled_and_active_split_the_list alphabetical
                         [Examples.threeWays] ["Mo"]))
           alphabetical_ordering).
Defined.

(** X11: marking a friend as settled takes the rows of that name, and only
    those, out of the active balances, whatever the balance is; unmarking
    puts them back. *)
Theorem marking_moves_only_that_friend
    (friendBalances : list FriendBalance.t) (settledBalances : list string)
    (friendName : string) (balance : FriendBalance.t) :
  (In balance
      (Settled.activeBalances friendBalances
         (Settled.markAsSettled settledBalances friendName))
   <-> In balance (Settled.activeBalances friendBalances settledBalances)
       /\ FriendBalance.name balance <> friendName)
  /\ (In balance
        (Settled.activeBalances friendBalances
           (Settled.unmarkAsSettled settledBalances friendName))
      <-> In balance (Settled.activeBalances friendBalances settledBalances)
          \/ (In balance friendBalances
              /\ FriendBalance.name balance = friendName)).
Proof.
  unfold Settled.activeBalances, Settled.markAsSettled, Settled.unmarkAsSettled.
  cbv zeta. rewrite !filter_In, !negb_true_iff.
  assert (Hno : forall s x, Host.Set_has s x = false <-> ~ In x s).
  { intros s x. rewrite <- Set_has_In. destruct (Host.Set_has s x); intuition congruence. }
  rewrite !Hno, Set_add_In_iff, Set_delete_In.
  destruct (string_dec (FriendBalance.name balance) friendName); tauto.
Qed.

(** X12: marking and then unmarking a friend leaves the set as unmarking
    alone does, which is the set itself when the friend was not in it;
    marking twice is marking once; and neither lists a name twice. *)
Theorem mark_then_unmark (settledBalances : list string) (friendName : string) :
  Settled.unmarkAsSettled (Settled.markAsSettled settledBalances friendName) friendName
  = Settled.unmarkAsSettled settledBalances friendName
  /\ (~ In friendName settledBalances ->
      Settled.unmarkAsSettled (Settled.markAsSettled settledBalances friendName)
        friendName = settledBalances)
  /\ Settled.markAsSettled (Settled.markAsSettled settledBalances friendName) friendName
     = Settled.markAsSettled settledBalances friendName
  /\ (NoDup settledBalances ->
      NoDup (Settled.markAsSettled settledBalances friendName)
      /\ NoDup (Settled.unmarkAsSettled settledBalances friendName)).
Proof.
  unfold Settled.markAsSettled, Settled.unmarkAsSettled. cbv zeta.
  assert (Habsent : forall s, ~ In friendName s -> Host.Set_delete s friendName = s).
  { intros s. unfold Host.Set_delete.
    induction s as [|y s IH]; simpl; intros Hnot; [reflexivity|].
    destruct (String.eqb_spec y friendName) as [->|Hne]; simpl; [tauto|].
    f_equal. apply IH. tauto. }
  assert (Hfirst : Host.Set_delete (JS.Set_add settledBalances friendName) friendName
                   = Host.Set_delete settledBalances friendName).
  { unfold JS.Set_add. destruct (existsb (String.eqb friendName) settledBalances);
      [reflexivity|].
    unfold Host.Set_delete. rewrite filter_app. simpl.
    rewrite String.eqb_refl. simpl. apply app_nil_r. }
  split; [exact Hfirst|]. split; [|split].
  - intros Hnot. rewrite Hfirst. now apply Habsent.
  - unfold JS.Set_add at 1.
    assert (E : existsb (String.eqb friendName) (JS.Set_add settledBalances friendName) = true).
    { apply existsb_eqb_In, Set_add_In_iff. now left. }
    now rewrite E.
  - intros Hnd. split; [now apply Set_add_NoDup|].
    unfold Host.Set_delete. now apply NoDup_filter.
Qed.

(** X12 at the set of Alex, marked and unmarked for Maria. *)
Lemma mark_then_unmark_witness :
  Settled.unmarkAsSettled (Settled.markAsSettled ["Alex"] "Maria") "Maria" = ["Alex"]
  /\ NoDup (Settled.markAsSettled ["Alex"] "Maria").
Proof.
  split.
  - apply (proj1 (proj2 (mark_then_unmark ["Alex"] "Maria"))).
    simpl. intuition discriminate.
  - apply (proj2 (proj2 (proj2 (mark_then_unmark ["Alex"] "Maria")))).
    repeat constructor. simpl. tauto.
Defined.

End SettledFacts.

(** ** Spending by category *)

Section CategoryFacts.

Import Expense.

(** X13: [getCategoryColor] gives a colour of the palette for every index,
    never [undefined], and the same colour seven places on. *)
Theorem getCategoryColor_cycles_through_the_palette (index : nat) :
  (exists colour : string,
      Categories.getCategoryColor index = Some colour
      /\ In colour Categories.categoryColors)
  /\ Categories.getCategoryColor (index + 7) = Categories.getCategoryColor index.
Proof.
  unfold Categories.getCategoryColor, Host.at_index. split.
  - assert (Hlt : index mod List.length Categories.categoryColors
                  < List.length Categories.categoryColors)
      by (apply Nat.mod_upper_bound; discriminate).
    destruct (nth_error Categories.categoryColors
                (index mod List.length Categories.categoryColors)) as [c|] eqn:E.
    + exists c. split; [reflexivity|]. eapply nth_error_In; exact E.
    + apply nth_error_None in E. lia.
  - change (List.length Categories.categoryColors) with 7.
    change (index + 7) with (index + 1 * 7).
    now rewrite (Nat.Div0.mod_add index 1 7).
Qed.

(** What the loop does to one title. *)
Definition onTitle (name : string) (held : option Categories.value) (x : float)
    : option Categories.value :=
  Some (Categories.plus name
          (match held with
           | Some v => Categories.Own v
           | None => if JS.inherited name then Categories.Inherited
                     else Categories.Undefined
           end) x).

Lemma categoryStep_get (expenses : list Expense.t) (name : string) :
  name <> JS.proto ->
  forall categories : JS.record Categories.value,
    JS.get (JS.forEach expenses Categories.categoryStep categories) name
    = fold_left (onTitle name)
        (map amount (filter (Ledger.titled name) expenses))
        (JS.get categories name).
Proof.
  intros Hproto.
  induction expenses as [|e expenses IH]; intros categories; [reflexivity|].
  rewrite forEach_cons, IH. unfold Categories.categoryStep. cbv zeta.
  simpl. unfold Ledger.titled at 2.
  destruct (String.eqb_spec (title e) name) as [<-|Hne]; simpl.
  - now rewrite get_set_same.
  - rewrite get_set_other by congruence. reflexivity.
Qed.

Lemma onTitle_number (name : string) (amounts : list float) :
  forall total : float,
    fold_left (onTitle name) amounts (Some (Categories.Num total))
    = Some (Categories.Num
              (fold_left (fun total x => (JS.or_zero (Some total) + x)%float)
                 amounts total)).
Proof.
  induction amounts as [|x amounts IH]; intros total; [reflexivity|].
  cbn [fold_left].
  change (onTitle name (Some (Categories.Num total)) x)
    with (Some (Categories.Num (JS.or_zero (Some total) + x)%float)).
  apply IH.
Qed.

Lemma onTitle_text (name member : string) (amounts : list float) :
  forall appended : list float,
    fold_left (onTitle name) amounts (Some (Categories.Text member appended))
    = Some (Categories.Text member (appended ++ amounts)).
Proof.
  induction amounts as [|x amounts IH]; intros appended.
  - simpl. now rewrite app_nil_r.
  - cbn [fold_left].
    change (onTitle name (Some (Categories.Text member appended)) x)
      with (Some (Categories.Text member (appended ++ [x]))).
    rewrite IH. now rewrite <- app_assoc.
Qed.

(** What a title with amounts holds after the loop. *)
Lemma onTitle_from_nothing (name : string) (amounts : list float)
    (held : Categories.value) :
  fold_left (onTitle name) amounts None = Some held ->
  held = if JS.inherited name then Categories.Text name amounts
         else Categories.Num (Ledger.runningTotal amounts).
Proof.
  destruct amounts as [|x amounts]; [discriminate|].
  cbn [fold_left]. unfold onTitle at 2. unfold Ledger.runningTotal.
  destruct (JS.inherited name); cbn [Categories.plus fold_left].
  - rewrite onTitle_text. now intros [= <-].
  - rewrite onTitle_number. now intros [= <-].
Qed.

Lemma categoryStep_names (expenses : list Expense.t) :
  forall categories : JS.record Categories.value,
    JS.own_names (JS.forEach expenses Categories.categoryStep categories)
    = fold_left JS.Set_add (filter Ledger.storable (map title expenses))
        (JS.own_names categories).
Proof.
  induction expenses as [|e expenses IH]; intros categories; [reflexivity|].
  rewrite forEach_cons, IH. unfold Categories.categoryStep. cbv zeta. simpl.
  destruct (Ledger.storable (title e)) eqn:Es.
  - apply storable_iff in Es. simpl. f_equal. unfold JS.Set_add.
    destruct (existsb (String.eqb (title e)) (JS.own_names categories)) eqn:E.
    + apply set_old_key. right. now apply existsb_eqb_In.
    + apply set_new_key; [exact Es|].
      intros Hin. apply existsb_eqb_In in Hin. congruence.
  - apply negb_false_iff, String.eqb_eq in Es. rewrite Es. now rewrite set_proto.
Qed.

(** The titles under which [categories] holds something, in the order of
    their creation. *)
Lemma categories_names (expenses : list Expense.t) :
  JS.own_names (Categories.categories expenses)
  = Ledger.distinct (filter Ledger.storable (map title expenses)).
Proof. unfold Categories.categories. now rewrite categoryStep_names. Qed.

Lemma categories_NoDup (expenses : list Expense.t) :
  NoDup (JS.own_names (Categories.categories expenses)).
Proof.
  unfold Categories.categories.
  apply forEach_invariant; [|constructor].
  intros o e _ Ho. now apply keys_set_NoDup.
Qed.

Lemma distinct_In (names : list string) :
  forall (seen : list string) (name : string),
    In name (fold_left JS.Set_add names seen) <-> In name seen \/ In name names.
Proof.
  induction names as [|n names IH]; intros seen name; simpl; [tauto|].
  rewrite IH, Set_add_In_iff. intuition congruence.
Qed.

(** [categories] holds something under the titles of the expenses other
    than [__proto__], and under no other name. *)
Lemma categories_has (expenses : list Expense.t) (name : string) :
  In name (JS.own_names (Categories.categories expenses))
  <-> In name (map title expenses) /\ name <> JS.proto.
Proof.
  rewrite categories_names. unfold Ledger.distinct.
  rewrite distinct_In, filter_In, storable_iff. simpl. tauto.
Qed.

Lemma map_from_In {A B : Type} (f : A -> nat -> B) (xs : list A) :
  forall (index : nat) (y : B),
    In y (Host.map_from index f xs)
    <-> exists n x, nth_error xs n = Some x /\ y = f x (index + n).
Proof.
  induction xs as [|x xs IH]; intros index y; simpl.
  - split; [intros [] | intros [[|n] [x [E _]]]; discriminate].
  - rewrite IH. split.
    + intros [<-|[n [x' [E ->]]]].
      * exists 0, x. split; [reflexivity | now rewrite Nat.add_0_r].
      * exists (S n), x'. split; [exact E | f_equal; lia].
    + intros [[|n] [x' [E ->]]].
      * simpl in E. injection E as ->. left. now rewrite Nat.add_0_r.
      * right. exists n, x'. split; [exact E | f_equal; lia].
Qed.

(** An entry of [expenseCategories] comes from an entry of [categories]. *)
Lemma expenseCategories_In (expenses : list Expense.t)
    (category : Categories.CategorySpending) :
  In category (Categories.expenseCategories expenses)
  <-> exists (index : nat) (name : string) (held : Categories.value),
        nth_error (JS.Object_entries (Categories.categories expenses)) index
        = Some (name, held)
        /\ category
           = Categories.mk name name held (Categories.getCategoryColor index).
Proof.
  unfold Categories.expenseCategories, Host.map_index.
  rewrite Array_sort_In, map_from_In. split.
  - intros [n [[name held] [E ->]]]. now exists n, name, held.
  - intros [n [name [held [E ->]]]]. now exists n, (name, held).
Qed.

(** X14: [expenseCategories] has one entry for each title of the expenses
    other than [__proto__], and no other; the entry has the title as [id]
    and as [name]; its [amount] is the running total of the amounts of the
    expenses of that title, in their order, unless the title names a member
    inherited from [Object.prototype], such as [constructor] or [toString]:
    then the [amount] is a text, that of the member followed by the digits
    of those amounts. *)
Theorem expenseCategories_groups_by_title (expenses : list Expense.t) :
  NoDup (map Categories.name (Categories.expenseCategories expenses))
  /\ Forall
       (fun category =>
          let amounts :=
            map amount
              (filter (Ledger.titled (Categories.name category)) expenses) in
          Categories.id category = Categories.name category
          /\ Categories.amount category
             = (if JS.inherited (Categories.name category)
                then Categories.Text (Categories.name category) amounts
                else Categories.Num (Ledger.runningTotal amounts))
          /\ In (Categories.name category) (map title expenses)
          /\ Categories.name category <> JS.proto)
       (Categories.expenseCategories expenses)
  /\ Forall
       (fun expense =>
          title expense <> JS.proto ->
          exists category,
            In category (Categories.expenseCategories expenses)
            /\ Categories.name category = title expense)
       expenses.
Proof.
  split; [|split].
  - unfold Categories.expenseCategories, Host.map_index.
    eapply Permutation_NoDup; [apply Permutation_map, Array_sort_perm|].
    assert (Hnames : forall (entries : list (string * Categories.value)) (i : nat),
               map Categories.name
                 (Host.map_from i
                    (fun '(name, amount) index =>
                       Categories.mk name name amount (Categories.getCategoryColor index))
                    entries)
               = map fst entries).
    { induction entries as [|[k v] entries IH]; intros i; simpl;
        [reflexivity | now rewrite IH]. }
    rewrite Hnames.
    eapply Permutation_NoDup; [symmetry; apply keys_perm|].
    apply categories_NoDup.
  - apply Forall_forall. intros category Hin.
    apply expenseCategories_In in Hin.
    destruct Hin as [index [name [held [E ->]]]]. cbv zeta. simpl.
    apply nth_error_In in E.
    apply (entries_get _ name held (categories_NoDup expenses)) in E.
    assert (Hhas : In name (map title expenses) /\ name <> JS.proto)
      by (apply categories_has; now apply get_Some_key in E).
    destruct Hhas as [Htitle Hproto].
    split; [reflexivity|]. split; [|now split].
    apply onTitle_from_nothing. rewrite <- E.
    unfold Categories.categories. now rewrite categoryStep_get.
  - apply Forall_forall. intros e He Hproto.
    assert (Hkey : In (title e) (JS.own_names (Categories.categories expenses))).
    { apply categories_has. split; [now apply in_map | exact Hproto]. }
    destruct (JS.get (Categories.categories expenses) (title e)) as [held|] eqn:E;
      [|apply get_None_iff in E; contradiction].
    apply (entries_get _ (title e) held (categories_NoDup expenses)) in E.
    apply In_nth_error in E. destruct E as [index E].
    exists (Categories.mk (title e) (title e) held (Categories.getCategoryColor index)).
    split; [|reflexivity].
    apply expenseCategories_In. now exists index, (title e), held.
Qed.

(** X15: the colour of a category is the colour of the place of its title
    in the listing of [categories], whatever place the sort by amount gives
    the category: the titles that are array indices come first, in
    ascending order, and then the other titles in the order of their first
    appearance among the expenses, [__proto__] left out. *)
Theorem category_colour_follows_the_listing (expenses : list Expense.t) :
  Forall
    (fun category =>
       exists index : nat,
         nth_error
           (JS.listed (fun title => title)
              (Ledger.distinct (filter Ledger.storable (map title expenses))))
           index
         = Some (Categories.name category)
         /\ Categories.color category = Categories.getCategoryColor index)
    (Categories.expenseCategories expenses).
Proof.
  apply Forall_forall. intros category Hin.
  apply expenseCategories_In in Hin.
  destruct Hin as [index [name [held [E ->]]]]. simpl.
  exists index. split; [|reflexivity].
  rewrite <- categories_names, <- keys_listed. unfold JS.Object_keys.
  now rewrite (map_nth_error fst index _ E).
Qed.

(** An expense titled 2024 after one titled Food: the category 2024 is
    listed first and takes the first colour. *)
Example numeric_title_takes_the_first_colour :
  map (fun category => (Categories.name category, Categories.color category))
    (Categories.expenseCategories
       [Expense.mk "1" "Food" 30 "2024-05-01" "You" ["You"];
        Expense.mk "2" "2024" 20 "2024-05-02" "You" ["You"]])
  = [("Food", Some "#FF9500"); ("2024", Some "#5D3FD3")].
Proof. reflexivity. Qed.

(** Two expenses titled constructor: the category's amount is a text. *)
Example inherited_title_has_a_text_amount :
  map Categories.amount
    (Categories.expenseCategories
       [Expense.mk "1" "constructor" 30 "2024-05-01" "You" ["You"];
        Expense.mk "2" "constructor" 20 "2024-05-02" "You" ["You"];
        Expense.mk "3" "__proto__" 10 "2024-05-03" "You" ["You"]])
  = [Categories.Text "constructor" [30%float; 20%float]].
Proof. reflexivity. Qed.

End CategoryFacts.
